(** * Game of Life (WebGPU): the grid renderer

    A shallow embedding of the two source files of the repository:

    - [shaders.js]: the WGSL vertex and fragment stages ([vertexMain],
      [fragmentMain]), modelled in module [Shader];
    - the main script: the per-tick function [updateGrid] and the timer that
      drives it, modelled in module [Host] over an explicit [World] (the
      global [step], the host heap of typed arrays, and the resources of the
      GPU device).

    Numbers.  A WGSL [f32] and an entry of a [Float32Array] is an IEEE-754
    binary32 value, modelled as the rational it denotes.  The conversion
    [f32(u32)], the four operations of the vertex stage and the stores into
    a [Float32Array] round to the nearest binary32 value, ties to even
    ([round_f32]); a JavaScript number literal rounds to the nearest
    binary64 value first ([round_f64]).  Every operation is taken to be
    correctly rounded (WGSL allows a division to be a few units in the last
    place off); overflow to an infinity, NaN and the sign of zero are not
    modelled, and no value of the program comes near them.  The fragment
    stage is kept over the rationals: what is proved of it is which of its
    inputs the colour is computed from.  [u32] values are [N].  The
    JavaScript counter [step] is a double that holds the number of ticks so
    far; [++] and [% 2] are exact on the integers below [2^53], which a
    timer of 200 ms does not reach, and [step] is modelled as an [N].
    Limits of the device (largest buffer, largest draw) are not modelled. *)

From Stdlib Require Import ZArith NArith QArith Qround Qpower Qabs Lia Lqa String.
From stdpp Require Import base list strings.

Open Scope Q_scope.

(* ===================================================================== *)
(** ** Binary floating point *)
(* ===================================================================== *)

(** Floor of the binary logarithm of a positive rational. *)
Definition ilog2 (x : Q) : Z :=
  let e := (Z.log2 (Qnum x) - Z.log2 (Zpos (Qden x)))%Z in
  if Qle_bool (2 ^ e) x then e else (e - 1)%Z.

(** Rounding to the nearest integer, ties to the even one. *)
Definition rne (y : Q) : Z :=
  let f := Qfloor y in
  match Qcompare (y - inject_Z f) (1 # 2) with
  | Lt => f
  | Gt => (f + 1)%Z
  | Eq => if Z.even f then f else (f + 1)%Z
  end.

(** The exponent of the unit in the last place of [x] in a binary format
    with [prec] significant bits and smallest normal exponent [emin]. *)
Definition ulp_exp (prec emin : Z) (x : Q) : Z :=
  (Z.max (ilog2 (Qabs x)) emin - (prec - 1))%Z.

(** Rounding to the nearest value of that format, ties to even. *)
Definition round_bin (prec emin : Z) (x : Q) : Q :=
  if Qeq_bool x 0 then 0
  else
    let ulp := 2 ^ ulp_exp prec emin x in
    inject_Z (rne (x / ulp)) * ulp.

(** binary32, the [f32] of WGSL and the element of a [Float32Array]. *)
Definition round_f32 : Q -> Q := round_bin 24 (-126).

(** binary64, the number of JavaScript. *)
Definition round_f64 : Q -> Q := round_bin 53 (-1022).

(** The exact value of a natural number. *)
Definition NQ (n : N) : Q := inject_Z (Z.of_N n).

(** [f32(n)] for a [u32] value [n]. *)
Definition f32 (n : N) : Q := round_f32 (NQ n).

(** [+], [-], [*] and [/] on [f32]. *)
Definition fadd (a b : Q) : Q := round_f32 (a + b).
Definition fsub (a b : Q) : Q := round_f32 (a - b).
Definition fmul (a b : Q) : Q := round_f32 (a * b).
Definition fdiv (a b : Q) : Q := round_f32 (a / b).

(** Rounding towards zero. *)
Definition Qtrunc (q : Q) : Z :=
  if Qle_bool 0 q then Qfloor q else Qceiling q.

(** WGSL [floor] on a float; the floor of a binary32 value is one. *)
Definition floor (q : Q) : Q := inject_Z (Qfloor q).

(** WGSL [%] on floats: [e1 % e2 = e1 - e2 * trunc (e1 / e2)]. *)
Definition fmod (e1 e2 : Q) : Q :=
  fsub e1 (fmul e2 (inject_Z (Qtrunc (fdiv e1 e2)))).

(** A number literal of the script as a [Float32Array] holds it. *)
Definition float32_of_literal (c : Q) : Q := round_f32 (round_f64 c).

(* ===================================================================== *)
(** ** shaders.js *)
(* ===================================================================== *)

Module Shader.

Record vec2f := Vec2f { x : Q; y : Q }.
Record vec4f := Vec4f { px : Q; py : Q; pz : Q; pw : Q }.

Definition vec4_eq (a b : vec4f) : Prop :=
  px a == px b /\ py a == py b /\ pz a == pz b /\ pw a == pw b.


(** The vector operations of WGSL on [vec2f] that the vertex stage uses,
    each component rounded to [f32]. *)
Definition vfdiv (a b : vec2f) : vec2f :=
  Vec2f (fdiv (x a) (x b)) (fdiv (y a) (y b)).
Definition vfadd (a b : vec2f) : vec2f :=
  Vec2f (fadd (x a) (x b)) (fadd (y a) (y b)).
Definition vfscale (a : vec2f) (k : Q) : vec2f :=
  Vec2f (fmul (x a) k) (fmul (y a) k).
Definition vfadds (a : vec2f) (k : Q) : vec2f :=
  Vec2f (fadd (x a) k) (fadd (y a) k).
Definition vfsubs (a : vec2f) (k : Q) : vec2f :=
  Vec2f (fsub (x a) k) (fsub (y a) k).

Record VertexInput := { vi_pos : vec2f; vi_instance : N }.
Record VertexOutput := { vo_pos : vec4f; vo_cell : vec2f }.

(** The resources of bind group 0:
    [@binding(0) var<uniform> grid] and [@binding(1) var<storage> cellState]. *)
Record Bindings := { grid : vec2f; cellState : list N }.

(** [cellState[k]]; an index past the end of the array is only defined up to
    the implementation by WGSL, and reads 0 here. *)
Definition read_state (b : Bindings) (k : N) : N :=
  default 0%N (cellState b !! N.to_nat k).

Definition vertexMain (b : Bindings) (input : VertexInput) : VertexOutput :=
  let i := f32 (vi_instance input) in
  let cellX := fmod i (x (grid b)) in
  let cellY := floor (fdiv i (x (grid b))) in
  let cell := Vec2f cellX cellY in
  let state := f32 (read_state b (vi_instance input)) in
  let cellOffset := vfscale (vfdiv cell (grid b)) 2 in
  let currentCellPos :=
    vfsubs (vfdiv (vfadds (vfscale (vi_pos input) state) 1) (grid b)) 1 in
  let gridPos := vfadd currentCellPos cellOffset in
  {| vo_pos := Vec4f (x gridPos) (y gridPos) 0 1; vo_cell := cell |}.


End Shader.

(* ===================================================================== *)
(** ** The main script *)
(* ===================================================================== *)

Module Host.

Open Scope nat_scope.

(** *** Host data: typed arrays, held by reference on a heap *)

Inductive TypedArray :=
| Uint32Array (xs : list N)
| Float32Array (xs : list Q).

Definition ta_length (a : TypedArray) : nat :=
  match a with
  | Uint32Array xs => length xs
  | Float32Array xs => length xs
  end.

(** Both element types take four bytes. *)
Definition byteLength (a : TypedArray) : nat := 4 * ta_length a.

(** *** Device data *)

(** One 32-bit cell of device memory, tagged with the type it was written
    with. *)
Inductive Word :=
| U32 (n : N)
| F32 (q : Q).

Definition words (a : TypedArray) : list Word :=
  match a with
  | Uint32Array xs => U32 <$> xs
  | Float32Array xs => F32 <$> xs
  end.

(** [GPUBufferUsage] flags (constants of the WebGPU API). *)
Definition COPY_DST : N := 8.
Definition VERTEX : N := 32.
Definition UNIFORM : N := 64.
Definition STORAGE : N := 128.

Record GPUBuffer := {
  buf_label : string;
  buf_size : nat;
  buf_usage : N;
  buf_data : list Word
}.

Inductive ShaderCode := cellShaderProgram.

Record GPUShaderModule := { sm_label : string; sm_code : ShaderCode }.

Record VertexBufferLayout := {
  arrayStride : nat;
  attr_format : string;
  attr_offset : nat;
  shaderLocation : nat
}.

Record GPURenderPipeline := {
  rp_label : string;
  rp_layout : string;
  rp_vertex_module : nat;
  rp_vertex_entryPoint : string;
  rp_vertex_buffers : list VertexBufferLayout;
  rp_fragment_module : nat;
  rp_fragment_entryPoint : string;
  rp_fragment_targets : list string
}.

(** [pipeline.getBindGroupLayout(index)]. *)
Record GPUBindGroupLayout := { bgl_pipeline : nat; bgl_index : nat }.

Record GPUBindGroup := {
  bg_label : string;
  bg_layout : GPUBindGroupLayout;
  bg_entries : list (nat * nat)      (* binding, buffer handle *)
}.

Record Colour := { r : Q; g : Q; b : Q; a : Q }.

Inductive Command :=
| BeginRenderPass (loadOp : string) (clearValue : Colour) (storeOp : string)
| SetPipeline (pipeline : nat)
| SetVertexBuffer (slot : nat) (buffer : nat)
| SetBindGroup (index : nat) (group : nat)
| Draw (vertexCount instanceCount : N)
| EndPass.

(** The calls made on the device, its queue and the canvas context, in
    program order. *)
Inductive Event :=
| EvCreateBuffer (label : string)
| EvWriteBuffer (buffer : nat)
| EvCreateShaderModule
| EvCreateRenderPipeline
| EvCreateBindGroup (label : string)
| EvConfigure
| EvCreateCommandEncoder
| EvGetCurrentTexture (acquired : bool)
| EvSubmit.

(** *** The world *)

Record World := {
  step : N;                             (* [let step = 0] *)
  heap : list TypedArray;               (* host typed arrays *)
  buffers : list GPUBuffer;             (* device buffers, by handle *)
  shaderModules : list GPUShaderModule;
  pipelines : list GPURenderPipeline;
  bindGroups : list GPUBindGroup;
  canvasConfig : option string;         (* configured texture format *)
  queue : list (list Command);          (* submitted command buffers *)
  trace : list Event
}.

Definition initial : World :=
  {| step := 0; heap := []; buffers := []; shaderModules := [];
     pipelines := []; bindGroups := []; canvasConfig := None;
     queue := []; trace := [] |}.

Definition set_step (f : N → N) (w : World) : World :=
  {| step := f (step w); heap := heap w; buffers := buffers w;
     shaderModules := shaderModules w; pipelines := pipelines w;
     bindGroups := bindGroups w; canvasConfig := canvasConfig w;
     queue := queue w; trace := trace w |}.

Definition set_heap (f : list TypedArray → list TypedArray) (w : World) : World :=
  {| step := step w; heap := f (heap w); buffers := buffers w;
     shaderModules := shaderModules w; pipelines := pipelines w;
     bindGroups := bindGroups w; canvasConfig := canvasConfig w;
     queue := queue w; trace := trace w |}.

Definition set_buffers (f : list GPUBuffer → list GPUBuffer) (w : World) : World :=
  {| step := step w; heap := heap w; buffers := f (buffers w);
     shaderModules := shaderModules w; pipelines := pipelines w;
     bindGroups := bindGroups w; canvasConfig := canvasConfig w;
     queue := queue w; trace := trace w |}.

Definition set_shaderModules (f : list GPUShaderModule → list GPUShaderModule)
    (w : World) : World :=
  {| step := step w; heap := heap w; buffers := buffers w;
     shaderModules := f (shaderModules w); pipelines := pipelines w;
     bindGroups := bindGroups w; canvasConfig := canvasConfig w;
     queue := queue w; trace := trace w |}.

Definition set_pipelines (f : list GPURenderPipeline → list GPURenderPipeline)
    (w : World) : World :=
  {| step := step w; heap := heap w; buffers := buffers w;
     shaderModules := shaderModules w; pipelines := f (pipelines w);
     bindGroups := bindGroups w; canvasConfig := canvasConfig w;
     queue := queue w; trace := trace w |}.

Definition set_bindGroups (f : list GPUBindGroup → list GPUBindGroup)
    (w : World) : World :=
  {| step := step w; heap := heap w; buffers := buffers w;
     shaderModules := shaderModules w; pipelines := pipelines w;
     bindGroups := f (bindGroups w); canvasConfig := canvasConfig w;
     queue := queue w; trace := trace w |}.

Definition set_canvasConfig (c : option string) (w : World) : World :=
  {| step := step w; heap := heap w; buffers := buffers w;
     shaderModules := shaderModules w; pipelines := pipelines w;
     bindGroups := bindGroups w; canvasConfig := c;
     queue := queue w; trace := trace w |}.

Definition set_queue (f : list (list Command) → list (list Command))
    (w : World) : World :=
  {| step := step w; heap := heap w; buffers := buffers w;
     shaderModules := shaderModules w; pipelines := pipelines w;
     bindGroups := bindGroups w; canvasConfig := canvasConfig w;
     queue := f (queue w); trace := trace w |}.

Definition log (e : Event) (w : World) : World :=
  {| step := step w; heap := heap w; buffers := buffers w;
     shaderModules := shaderModules w; pipelines := pipelines w;
     bindGroups := bindGroups w; canvasConfig := canvasConfig w;
     queue := queue w; trace := trace w ++ [e] |}.

(** *** Statements: state, exceptions, and loops with fuel *)

Inductive outcome (A : Type) :=
| Returned (v : A)
| Threw (e : string)
| OutOfFuel.
Arguments Returned {A} v.
Arguments Threw {A} e.
Arguments OutOfFuel {A}.

Definition M (A : Type) : Type := World → outcome A * World.

Definition ret {A} (v : A) : M A := λ w, (Returned v, w).

Definition bind {A B} (c : M A) (k : A → M B) : M B :=
  λ w, match c w with
       | (Returned v, w') => k v w'
       | (Threw e, w') => (Threw e, w')
       | (OutOfFuel, w') => (OutOfFuel, w')
       end.

Definition throw {A} (e : string) : M A := λ w, (Threw e, w).

Definition modify (f : World → World) : M unit := λ w, (Returned tt, f w).

Definition gets {A} (f : World → A) : M A := λ w, (Returned (f w), w).

Notation "x <- c ;; k" := (bind c (λ x, k))
  (at level 100, c at next level, right associativity).
Notation "c ;; k" := (bind c (λ _, k))
  (at level 100, right associativity).

(** [for (let i = start; cond(i); i = next(i)) body(i)]. *)
Fixpoint for_loop (fuel : nat) (cond : nat → M bool) (next : nat → nat)
    (body : nat → M unit) (i : nat) : M unit :=
  match fuel with
  | O => λ w, (OutOfFuel, w)
  | S fuel' =>
      c <- cond i ;;
      if c then body i ;; for_loop fuel' cond next body (next i)
      else ret tt
  end.

(** *** The host and device operations the script calls *)

(** [new Uint32Array(n)]: a fresh array of [n] zeros. *)
Definition new_Uint32Array (n : N) : M nat :=
  ref <- gets (λ w, length (heap w)) ;;
  modify (set_heap (λ h, h ++ [Uint32Array (replicate (N.to_nat n) 0%N)])) ;;
  ret ref.

(** [new Float32Array([...])]. *)
Definition new_Float32Array (xs : list Q) : M nat :=
  ref <- gets (λ w, length (heap w)) ;;
  modify (set_heap (λ h, h ++ [Float32Array xs])) ;;
  ret ref.

Definition array_length (ref : nat) : M nat :=
  o <- gets (λ w, heap w !! ref) ;;
  match o with
  | Some arr => ret (ta_length arr)
  | None => throw "TypeError"
  end.

Definition array_byteLength (ref : nat) : M nat :=
  o <- gets (λ w, heap w !! ref) ;;
  match o with
  | Some arr => ret (byteLength arr)
  | None => throw "TypeError"
  end.

(** [arr[i] = v] on a [Uint32Array]: the array is updated in place, the
    value is stored modulo [2^32], and a write past the end is ignored. *)
Definition array_set (ref i : nat) (v : N) : M unit :=
  modify (set_heap (λ h,
    match h !! ref with
    | Some (Uint32Array xs) =>
        <[ref := Uint32Array (<[i := (v mod 2 ^ 32)%N]> xs)]> h
    | _ => h
    end)).

(** [device.createBuffer({label, size, usage})]: fresh, zero-filled. *)
Definition createBuffer (label : string) (size : nat) (usage : N) : M nat :=
  h <- gets (λ w, length (buffers w)) ;;
  modify (set_buffers (λ bs, bs ++
    [{| buf_label := label; buf_size := size; buf_usage := usage;
        buf_data := replicate (size / 4) (U32 0) |}])) ;;
  modify (log (EvCreateBuffer label)) ;;
  ret h.

(** [device.queue.writeBuffer(buffer, bufferOffset, data)]: the current
    contents of the host array are copied into the buffer when they fit;
    otherwise the device rejects the write and the buffer is unchanged. *)
Definition writeBuffer (buffer bufferOffset data : nat) : M unit :=
  o <- gets (λ w, heap w !! data) ;;
  match o with
  | None => throw "TypeError"
  | Some arr =>
      modify (set_buffers (λ bs,
        match bs !! buffer with
        | Some bf =>
            if bufferOffset + byteLength arr <=? buf_size bf then
              <[buffer :=
                 {| buf_label := buf_label bf; buf_size := buf_size bf;
                    buf_usage := buf_usage bf;
                    buf_data :=
                      take (bufferOffset / 4) (buf_data bf) ++ words arr ++
                      drop (bufferOffset / 4 + ta_length arr) (buf_data bf) |}]> bs
            else bs
        | None => bs
        end)) ;;
      modify (log (EvWriteBuffer buffer))
  end.

Definition createShaderModule (label : string) (code : ShaderCode) : M nat :=
  h <- gets (λ w, length (shaderModules w)) ;;
  modify (set_shaderModules (λ ms, ms ++ [{| sm_label := label; sm_code := code |}])) ;;
  modify (log EvCreateShaderModule) ;;
  ret h.

Definition createRenderPipeline (descriptor : GPURenderPipeline) : M nat :=
  h <- gets (λ w, length (pipelines w)) ;;
  modify (set_pipelines (λ ps, ps ++ [descriptor])) ;;
  modify (log EvCreateRenderPipeline) ;;
  ret h.

Definition getBindGroupLayout (pipeline index : nat) : GPUBindGroupLayout :=
  {| bgl_pipeline := pipeline; bgl_index := index |}.

Definition createBindGroup (label : string) (layout : GPUBindGroupLayout)
    (entries : list (nat * nat)) : M nat :=
  h <- gets (λ w, length (bindGroups w)) ;;
  modify (set_bindGroups (λ gs, gs ++
    [{| bg_label := label; bg_layout := layout; bg_entries := entries |}])) ;;
  modify (log (EvCreateBindGroup label)) ;;
  ret h.

(** [context.configure({device, format})]. *)
Definition configure (format : string) : M unit :=
  modify (set_canvasConfig (Some format)) ;;
  modify (log EvConfigure).

Definition createCommandEncoder : M unit :=
  modify (log EvCreateCommandEncoder).

(** [context.getCurrentTexture()], followed by [createView()].  Whether the
    canvas hands out a texture is decided by the environment; when it does
    not, the call throws. *)
Definition getCurrentTexture (acquired : bool) : M unit :=
  modify (log (EvGetCurrentTexture acquired)) ;;
  if acquired then ret tt else throw "InvalidStateError".

(** [device.queue.submit([commandBuffer])]. *)
Definition submit (commandBuffer : list Command) : M unit :=
  modify (set_queue (λ q, q ++ [commandBuffer])) ;;
  modify (log EvSubmit).

(** *** [updateGrid] *)

Section Program.

Variable GRID_SIZE : N.
(** [navigator.gpu.getPreferredCanvasFormat()]. *)
Variable preferredCanvasFormat : string.

(** The elements of [vertices], as the [Float32Array] holds them. *)
Definition vertices_literal : list Q :=
  float32_of_literal <$>
  [ -0.8; -0.8;  0.8; -0.8;  0.8; 0.8;
    -0.8; -0.8; -0.8;  0.8;  0.8; 0.8 ]%Q.

Definition loop_fuel : nat := S (N.to_nat (GRID_SIZE * GRID_SIZE)).

Definition updateGrid (acquired : bool) : M unit :=
  modify (set_step (λ s, s + 1)%N) ;;
  cellStateArray <- new_Uint32Array (GRID_SIZE * GRID_SIZE) ;;
  size <- array_byteLength cellStateArray ;;
  cellStateA <- createBuffer "Cell State A" size (N.lor STORAGE COPY_DST) ;;
  size <- array_byteLength cellStateArray ;;
  cellStateB <- createBuffer "Cell State B" size (N.lor STORAGE COPY_DST) ;;
  let cellStateStorageBuffers := [cellStateA; cellStateB] in
  for_loop loop_fuel
    (λ i, len <- array_length cellStateArray ;; ret (i <? len))
    (λ i, i + 3)
    (λ i, array_set cellStateArray i 1) 0 ;;
  writeBuffer cellStateA 0 cellStateArray ;;
  for_loop loop_fuel
    (λ i, len <- array_length cellStateArray ;; ret (i <? len))
    (λ i, i + 1)
    (λ i, array_set cellStateArray i (1 mod 2)%N) 0 ;;
  writeBuffer cellStateB 0 cellStateArray ;;
  gridSizeUniformArray <- new_Float32Array [f32 GRID_SIZE; f32 GRID_SIZE] ;;
  size <- array_byteLength gridSizeUniformArray ;;
  gridSizeUniformBuffer <- createBuffer "Grid Uniforms" size (N.lor UNIFORM COPY_DST) ;;
  writeBuffer gridSizeUniformBuffer 0 gridSizeUniformArray ;;
  let canvasFormat := preferredCanvasFormat in
  vertices <- new_Float32Array vertices_literal ;;
  size <- array_byteLength vertices ;;
  vertexBuffer <- createBuffer "Cell vertices" size (N.lor VERTEX COPY_DST) ;;
  writeBuffer vertexBuffer 0 vertices ;;
  let vertexBufferLayout :=
    {| arrayStride := 8; attr_format := "float32x2"; attr_offset := 0;
       shaderLocation := 0 |} in
  cellShaderModule <- createShaderModule "Cell shader" cellShaderProgram ;;
  cellPipeline <- createRenderPipeline
    {| rp_label := "Cell pipeline"; rp_layout := "auto";
       rp_vertex_module := cellShaderModule;
       rp_vertex_entryPoint := "vertexMain";
       rp_vertex_buffers := [vertexBufferLayout];
       rp_fragment_module := cellShaderModule;
       rp_fragment_entryPoint := "fragmentMain";
       rp_fragment_targets := [canvasFormat] |} ;;
  groupA <- createBindGroup "Cell renderer bind group A"
    (getBindGroupLayout cellPipeline 0)
    [(0, gridSizeUniformBuffer); (1, cellStateA)] ;;
  groupB <- createBindGroup "Cell renderer bind group B"
    (getBindGroupLayout cellPipeline 0)
    [(0, gridSizeUniformBuffer); (1, cellStateB)] ;;
  let bindGroups := [groupA; groupB] in
  configure canvasFormat ;;
  createCommandEncoder ;;
  getCurrentTexture acquired ;;
  let renderPass :=
    [BeginRenderPass "clear" {| r := 0; g := 0; b := 0.4; a := 1.0 |} "store"] in
  let renderPass := renderPass ++ [SetPipeline cellPipeline] in
  let renderPass := renderPass ++ [SetVertexBuffer 0 vertexBuffer] in
  s <- gets step ;;
  match bindGroups !! N.to_nat (s mod 2) with
  | None => throw "TypeError"
  | Some group =>
      let renderPass := renderPass ++ [SetBindGroup 0 group] in
      len <- array_length vertices ;;
      let renderPass :=
        renderPass ++ [Draw (N.of_nat len / 2) (GRID_SIZE * GRID_SIZE)] in
      let renderPass := renderPass ++ [EndPass] in
      let commandBuffer := renderPass in
      submit commandBuffer
  end.

(** [setInterval(updateGrid, UPDATE_INTERVAL)]: the timer calls [updateGrid]
    once per tick and discards both its result and an exception it throws.
    A schedule lists, tick by tick, whether the canvas hands out a texture. *)
Definition tick (acquired : bool) (w : World) : World :=
  snd (updateGrid acquired w).

Definition run (schedule : list bool) (w : World) : World :=
  foldl (λ w acquired, tick acquired w) w schedule.

End Program.

(** *** What a submitted command buffer draws *)

(** The state a render pass accumulates while its commands are replayed. *)
Record PassState := {
  ps_begin : option (string * Colour * string);
  ps_pipeline : option nat;
  ps_vertexBuffer : option nat;
  ps_bindGroup : option nat;
  ps_draw : option (N * N)
}.

Definition pass_start : PassState :=
  {| ps_begin := None; ps_pipeline := None; ps_vertexBuffer := None;
     ps_bindGroup := None; ps_draw := None |}.

Definition replay_command (s : PassState) (c : Command) : PassState :=
  match c with
  | BeginRenderPass l c st =>
      {| ps_begin := Some (l, c, st); ps_pipeline := ps_pipeline s;
         ps_vertexBuffer := ps_vertexBuffer s; ps_bindGroup := ps_bindGroup s;
         ps_draw := ps_draw s |}
  | SetPipeline p =>
      {| ps_begin := ps_begin s; ps_pipeline := Some p;
         ps_vertexBuffer := ps_vertexBuffer s; ps_bindGroup := ps_bindGroup s;
         ps_draw := ps_draw s |}
  | SetVertexBuffer _ vb =>
      {| ps_begin := ps_begin s; ps_pipeline := ps_pipeline s;
         ps_vertexBuffer := Some vb; ps_bindGroup := ps_bindGroup s;
         ps_draw := ps_draw s |}
  | SetBindGroup _ gr =>
      {| ps_begin := ps_begin s; ps_pipeline := ps_pipeline s;
         ps_vertexBuffer := ps_vertexBuffer s; ps_bindGroup := Some gr;
         ps_draw := ps_draw s |}
  | Draw vc ic =>
      {| ps_begin := ps_begin s; ps_pipeline := ps_pipeline s;
         ps_vertexBuffer := ps_vertexBuffer s; ps_bindGroup := ps_bindGroup s;
         ps_draw := Some (vc, ic) |}
  | EndPass => s
  end.

Fixpoint assoc (k : nat) (l : list (nat * nat)) : option nat :=
  match l with
  | [] => None
  | (k', v) :: l' => if k =? k' then Some v else assoc k l'
  end.

(** The content of one frame: every handle a command buffer mentions is
    replaced by what the device holds under it. *)
Record Frame := {
  fr_loadOp : string;
  fr_clearValue : Colour;
  fr_storeOp : string;
  fr_shader : ShaderCode;
  fr_vertexEntry : string;
  fr_fragmentEntry : string;
  fr_vertexLayout : list VertexBufferLayout;
  fr_targets : list string;
  fr_vertexData : list Word;
  fr_groupLabel : string;      (* label of the bind group set at index 0 *)
  fr_uniform : list Word;      (* the buffer at binding 0 *)
  fr_stateLabel : string;      (* label of the buffer at binding 1 *)
  fr_cellState : list Word;    (* the buffer at binding 1 *)
  fr_vertexCount : N;
  fr_instanceCount : N
}.

Definition frame_of (w : World) (commandBuffer : list Command) : option Frame :=
  let s := foldl replay_command pass_start commandBuffer in
  '(l, c, st) ← ps_begin s;
  p ← ps_pipeline s;
  pipeline ← pipelines w !! p;
  vmod ← shaderModules w !! rp_vertex_module pipeline;
  vb ← ps_vertexBuffer s;
  vbuf ← buffers w !! vb;
  gr ← ps_bindGroup s;
  group ← bindGroups w !! gr;
  ub ← assoc 0 (bg_entries group);
  ubuf ← buffers w !! ub;
  sb ← assoc 1 (bg_entries group);
  sbuf ← buffers w !! sb;
  '(vc, ic) ← ps_draw s;
  Some {| fr_loadOp := l; fr_clearValue := c; fr_storeOp := st;
          fr_shader := sm_code vmod;
          fr_vertexEntry := rp_vertex_entryPoint pipeline;
          fr_fragmentEntry := rp_fragment_entryPoint pipeline;
          fr_vertexLayout := rp_vertex_buffers pipeline;
          fr_targets := rp_fragment_targets pipeline;
          fr_vertexData := buf_data vbuf;
          fr_groupLabel := bg_label group;
          fr_uniform := buf_data ubuf;
          fr_stateLabel := buf_label sbuf;
          fr_cellState := buf_data sbuf;
          fr_vertexCount := vc; fr_instanceCount := ic |}.

(** The command buffers that [w'] has and its predecessor [w] had not. *)
Definition submissions_since (w w' : World) : list (list Command) :=
  drop (length (queue w)) (queue w').

(** The frame that one call of [updateGrid] from [w] submits, if any. *)
Definition submitted_frame (GRID_SIZE : N) (format : string)
    (acquired : bool) (w : World) : option Frame :=
  let w' := tick GRID_SIZE format acquired w in
  match submissions_since w w' with
  | [commandBuffer] => frame_of w' commandBuffer
  | _ => None
  end.

(** The frame of invocation [k] (counted from 0) under a schedule, starting
    from the initial world. *)
Definition invocation_frame (GRID_SIZE : N) (format : string)
    (schedule : list bool) (k : nat) : option Frame :=
  acquired ← schedule !! k;
  submitted_frame GRID_SIZE format acquired
    (run GRID_SIZE format (take k schedule) initial).

(** *** From a frame to the inputs of the shader stages *)

Definition uniform_grid (ws : list Word) : option Shader.vec2f :=
  match ws with
  | [F32 gx; F32 gy] => Some (Shader.Vec2f gx gy)
  | _ => None
  end.

Definition u32_word (wd : Word) : option N :=
  match wd with U32 n => Some n | F32 _ => None end.

Definition frame_bindings (f : Frame) : option Shader.Bindings :=
  gr ← uniform_grid (fr_uniform f);
  cs ← mapM u32_word (fr_cellState f);
  Some {| Shader.grid := gr; Shader.cellState := cs |}.

(** Vertex [v] of the vertex buffer: two floats, eight bytes apart. *)
Definition vertex_position (ws : list Word) (v : nat) : option Shader.vec2f :=
  match ws !! (2 * v), ws !! (2 * v + 1) with
  | Some (F32 vx), Some (F32 vy) => Some (Shader.Vec2f vx vy)
  | _, _ => None
  end.

(** The vertex stage run on vertex [v] of instance [inst] of a frame. *)
Definition vertex_stage (f : Frame) (inst : N) (v : nat)
    : option Shader.VertexOutput :=
  bnd ← frame_bindings f;
  p ← vertex_position (fr_vertexData f) v;
  Some (Shader.vertexMain bnd {| Shader.vi_pos := p; Shader.vi_instance := inst |}).

(** *** Counting calls in a trace *)

Definition is_submit (e : Event) : bool :=
  match e with EvSubmit => true | _ => false end.
Definition is_createRenderPipeline (e : Event) : bool :=
  match e with EvCreateRenderPipeline => true | _ => false end.
Definition is_createBindGroup (e : Event) : bool :=
  match e with EvCreateBindGroup _ => true | _ => false end.
Definition is_createBuffer (label : string) (e : Event) : bool :=
  match e with EvCreateBuffer l => bool_decide (l = label) | _ => false end.

Definition count (p : Event → bool) (t : list Event) : nat :=
  length (filter (λ e, p e = true) t).

(** [e] is an upload into a buffer of [bs] that carries [label]. *)
Definition is_upload_to (bs : list GPUBuffer) (label : string) (e : Event)
    : bool :=
  match e with
  | EvWriteBuffer h =>
      match bs !! h with
      | Some bf => bool_decide (buf_label bf = label)
      | None => false
      end
  | _ => false
  end.

(** Uploads into buffers carrying a given label. *)
Definition uploads_to (label : string) (w : World) : nat :=
  count (is_upload_to (buffers w) label) (trace w).

(** *** Closed forms used in the statements below *)

(** The array left by [for (i = start; i < xs.length; i += k) xs[i] = v]. *)
Definition strided (k : nat) (v : N) (start : nat) (xs : list N) : list N :=
  imap (λ j x, if (start <=? j) && ((j - start) mod k =? 0) then v else x) xs.

(** Number of cells of the grid. *)
Definition cells (GRID_SIZE : N) : nat := N.to_nat (GRID_SIZE * GRID_SIZE).

(** 1 at the multiples of three, 0 elsewhere. *)
Definition every_third (n : nat) : list N :=
  (λ j, if j mod 3 =? 0 then 1%N else 0%N) <$> seq 0 n.

(** The device calls of one invocation up to and including the attempt to
    get the canvas texture; [h] is the handle of the first buffer created. *)
Definition setup_calls (h : nat) (acquired : bool) : list Event :=
  [ EvCreateBuffer "Cell State A"; EvCreateBuffer "Cell State B";
    EvWriteBuffer h; EvWriteBuffer (h + 1);
    EvCreateBuffer "Grid Uniforms"; EvWriteBuffer (h + 2);
    EvCreateBuffer "Cell vertices"; EvWriteBuffer (h + 3);
    EvCreateShaderModule; EvCreateRenderPipeline;
    EvCreateBindGroup "Cell renderer bind group A";
    EvCreateBindGroup "Cell renderer bind group B";
    EvConfigure; EvCreateCommandEncoder; EvGetCurrentTexture acquired ].

(** The world one call of [updateGrid] leaves behind, written out. *)
Definition after (GRID_SIZE : N) (format : string) (acquired : bool)
    (w : World) : World :=
  let n := cells GRID_SIZE in
  let h := length (buffers w) in
  let m := length (shaderModules w) in
  let p := length (pipelines w) in
  let gr := length (bindGroups w) in
  {| step := step w + 1;
     heap := heap w ++
       [ Uint32Array (replicate n 1%N);
         Float32Array [f32 GRID_SIZE; f32 GRID_SIZE];
         Float32Array vertices_literal ];
     buffers := buffers w ++
       [ {| buf_label := "Cell State A"; buf_size := 4 * n;
            buf_usage := N.lor STORAGE COPY_DST;
            buf_data := U32 <$> every_third n |};
         {| buf_label := "Cell State B"; buf_size := 4 * n;
            buf_usage := N.lor STORAGE COPY_DST;
            buf_data := U32 <$> replicate n 1%N |};
         {| buf_label := "Grid Uniforms"; buf_size := 8;
            buf_usage := N.lor UNIFORM COPY_DST;
            buf_data := [F32 (f32 GRID_SIZE); F32 (f32 GRID_SIZE)] |};
         {| buf_label := "Cell vertices"; buf_size := 48;
            buf_usage := N.lor VERTEX COPY_DST;
            buf_data := F32 <$> vertices_literal |} ];
     shaderModules := shaderModules w ++
       [ {| sm_label := "Cell shader"; sm_code := cellShaderProgram |} ];
     pipelines := pipelines w ++
       [ {| rp_label := "Cell pipeline"; rp_layout := "auto";
            rp_vertex_module := m; rp_vertex_entryPoint := "vertexMain";
            rp_vertex_buffers :=
              [ {| arrayStride := 8; attr_format := "float32x2";
                   attr_offset := 0; shaderLocation := 0 |} ];
            rp_fragment_module := m; rp_fragment_entryPoint := "fragmentMain";
            rp_fragment_targets := [format] |} ];
     bindGroups := bindGroups w ++
       [ {| bg_label := "Cell renderer bind group A";
            bg_layout := getBindGroupLayout p 0;
            bg_entries := [(0, h + 2); (1, h)] |};
         {| bg_label := "Cell renderer bind group B";
            bg_layout := getBindGroupLayout p 0;
            bg_entries := [(0, h + 2); (1, h + 1)] |} ];
     canvasConfig := Some format;
     queue := queue w ++
       (if acquired then
          [ [ BeginRenderPass "clear" {| r := 0; g := 0; b := 0.4; a := 1.0 |} "store";
              SetPipeline p; SetVertexBuffer 0 (h + 3);
              SetBindGroup 0 (gr + N.to_nat ((step w + 1) mod 2));
              Draw 6 (GRID_SIZE * GRID_SIZE); EndPass ] ]
        else []);
     trace := trace w ++ setup_calls h acquired ++
       (if acquired then [EvSubmit] else []) |}.

(** The bindings of a frame of an [n] by [n] grid whose cells have the
    states [cs]. *)
Definition cell_bindings (n : N) (cs : list N) : Shader.Bindings :=
  {| Shader.grid := Shader.Vec2f (f32 n) (f32 n); Shader.cellState := cs |}.




(** The states a frame of the script holds: those of buffer B for the
    second bind group, those of buffer A for the first. *)
Definition frame_states (GRID_SIZE : N) (second : bool) : list N :=
  if second then replicate (cells GRID_SIZE) 1%N
  else every_third (cells GRID_SIZE).

(** The frame a call of [updateGrid] submits, written out; [second] tells
    which of the two bind groups, [bindGroups[0]] or [bindGroups[1]], the
    call sets. *)
Definition expected_frame (GRID_SIZE : N) (format : string) (second : bool)
    : Frame :=
  {| fr_loadOp := "clear";
     fr_clearValue := {| r := 0; g := 0; b := 0.4; a := 1.0 |};
     fr_storeOp := "store";
     fr_shader := cellShaderProgram;
     fr_vertexEntry := "vertexMain";
     fr_fragmentEntry := "fragmentMain";
     fr_vertexLayout :=
       [ {| arrayStride := 8; attr_format := "float32x2"; attr_offset := 0;
            shaderLocation := 0 |} ];
     fr_targets := [format];
     fr_vertexData := F32 <$> vertices_literal;
     fr_groupLabel :=
       if second then "Cell renderer bind group B"
       else "Cell renderer bind group A";
     fr_uniform := [F32 (f32 GRID_SIZE); F32 (f32 GRID_SIZE)];
     fr_stateLabel := if second then "Cell State B" else "Cell State A";
     fr_cellState := U32 <$> frame_states GRID_SIZE second;
     fr_vertexCount := 6;
     fr_instanceCount := GRID_SIZE * GRID_SIZE |}.

(** Every upload a trace mentions goes to a buffer the device holds. *)
Definition uploads_resolved (w : World) : Prop :=
  ∀ h, EvWriteBuffer h ∈ trace w → h < length (buffers w).

End Host.

(* ===================================================================== *)
(** ** Observations on worlds, traces and shader outputs *)
(* ===================================================================== *)

Module Observe.

Import Host.

(** What each submitted command buffer draws, in submission order. *)
Definition queue_frames (w : World) : list (option Frame) :=
  frame_of w <$> queue w.

(** The frames a schedule calls for: one per tick that gets its texture,
    in the order of the ticks. *)
Definition scheduled_frames (GRID_SIZE : N) (format : string)
    (schedule : list bool) : list Frame :=
  (λ p, expected_frame GRID_SIZE format (Nat.even p.1))
    <$> filter (λ p, p.2 = true) (imap (λ k acquired, (k, acquired)) schedule).

(** Uploads into the buffer with handle [h]. *)
Definition writes_to (h : nat) (t : list Event) : nat :=
  count (λ e, match e with EvWriteBuffer h' => h' =? h | _ => false end) t.

(** Bytes of device memory held by buffers. *)
Definition device_bytes (w : World) : nat :=
  sum_list_with buf_size (buffers w).

(** Number of cells with a state other than 0. *)
Definition active_cells (cs : list N) : nat :=
  length (filter (λ st, st ≠ 0%N) cs).




End Observe.

(* ===================================================================== *)
(** * Facts about rounding *)
(* ===================================================================== *)

(** ** Rounding to the nearest integer *)





(** ** Powers of two *)


Lemma pow2_add j k : 2 ^ (j + k) == 2 ^ j * 2 ^ k.
Proof. by apply Qpower_plus. Qed.


Lemma pow2_Z k : (0 <= k)%Z -> 2 ^ k == inject_Z (2 ^ k).
Proof. intros H. rewrite (Zpower_Qpower 2 k H). reflexivity. Qed.

(** ** The exponent *)


Lemma ilog2_upper x : 0 < x -> x < 2 ^ (ilog2 x + 1).
Proof.
  intros Hx. unfold ilog2.
  destruct (Qle_bool _ x) eqn:E.
  - destruct x as [a b]. cbn [Qnum Qden] in *. clear E.
    assert (Ha : (0 < a)%Z).
    { unfold Qlt in Hx. cbn in Hx. lia. }
    destruct (Z.log2_spec a Ha) as [_ Ua].
    destruct (Z.log2_spec (Zpos b) eq_refl) as [Lb _].
    pose proof (Z.log2_nonneg a) as Na.
    pose proof (Z.log2_nonneg (Zpos b)) as Nb.
    set (la := Z.log2 a) in *. set (lb := Z.log2 (Zpos b)) in *.
    replace (la - lb + 1)%Z with ((la + 1) + - lb)%Z by lia.
    rewrite pow2_add, Qpower_opp.
    rewrite (pow2_Z (la + 1)), (pow2_Z lb) by lia.
    replace (Z.succ la) with (la + 1)%Z in Ua by lia.
    assert (Hp : (0 < 2 ^ lb)%Z) by (apply Z.pow_pos_nonneg; lia).
    set (A := (2 ^ (la + 1))%Z) in *. set (B := (2 ^ lb)%Z) in *.
    apply Qlt_shift_div_l;
      [change 0 with (inject_Z 0); rewrite <- Zlt_Qlt; exact Hp |].
    unfold Qlt, Qmult, inject_Z. cbn [Qnum Qden].
    rewrite !Z.mul_1_r. rewrite Pos.mul_1_r.
    nia.
  - replace (Z.log2 (Qnum x) - Z.log2 (Z.pos (Qden x)) - 1 + 1)%Z
      with (Z.log2 (Qnum x) - Z.log2 (Z.pos (Qden x)))%Z by lia.
    apply Qnot_le_lt. intros H. apply Qle_bool_iff in H. congruence.
Qed.


(** ** Rounding to a binary format *)

Section Rounding.

Variables prec emin : Z.








End Rounding.

(** ** binary32 *)




(** Some values, as IEEE-754 arithmetic gives them. *)
Example round_f32_third : round_f32 (1 # 3) == 11184811 # 33554432.
Proof. vm_compute. reflexivity. Qed.

Example round_f32_tie_to_even :
  round_f32 16777217 == 16777216 /\ round_f32 16777219 == 16777220.
Proof. split; vm_compute; reflexivity. Qed.

Example round_f32_subnormal :
  round_f32 ((3 # 2) * 2 ^ (-149)) == 2 * 2 ^ (-149).
Proof. vm_compute. reflexivity. Qed.

Example round_f64_tenth :
  round_f64 (1 # 10) == 3602879701896397 # 36028797018963968.
Proof. vm_compute. reflexivity. Qed.

Example float32_of_literal_0_8 :
  float32_of_literal 0.8 == 13421773 # 16777216
  /\ 0.8 < float32_of_literal 0.8.
Proof. split; vm_compute; reflexivity. Qed.

(* ===================================================================== *)
(** * Facts about the main script *)
(* ===================================================================== *)

Import Host.
Local Open Scope nat_scope.

(** ** The two fill loops *)

Lemma strided_length k v i xs : length (strided k v i xs) = length xs.
Proof. apply length_imap. Qed.

Lemma strided_step k v i xs :
  0 < k → i < length xs →
  strided k v (i + k) (<[i := v]> xs) = strided k v i xs.
Proof.
  intros Hk Hi. apply list_eq. intros j. unfold strided.
  rewrite !list_lookup_imap.
  destruct (decide (j = i)) as [-> | Hne].
  - rewrite list_lookup_insert_eq by done.
    destruct (xs !! i) eqn:E; [| apply lookup_ge_None in E; lia].
    simpl. replace (i + k <=? i) with false by (symmetry; apply Nat.leb_gt; lia).
    rewrite Nat.leb_refl, Nat.sub_diag, Nat.Div0.mod_0_l. reflexivity.
  - rewrite list_lookup_insert_ne by done.
    destruct (xs !! j) as [x0 |]; [simpl | reflexivity]. f_equal.
    destruct (Nat.leb_spec (i + k) j) as [Hge | Hlt].
    + replace (i <=? j) with true by (symmetry; apply Nat.leb_le; lia).
      replace (j - i) with (j - (i + k) + 1 * k) by lia.
      rewrite Nat.Div0.mod_add. reflexivity.
    + destruct (Nat.leb_spec i j) as [Hij | Hji]; [| reflexivity].
      simpl. rewrite Nat.mod_small by lia.
      replace (j - i =? 0) with false by (symmetry; apply Nat.eqb_neq; lia).
      reflexivity.
Qed.

Lemma strided_done k v i xs : length xs ≤ i → strided k v i xs = xs.
Proof.
  intros Hi. apply list_eq. intros j. unfold strided. rewrite list_lookup_imap.
  destruct (xs !! j) as [x0 |] eqn:E; [simpl | reflexivity].
  apply lookup_lt_Some in E.
  replace (i <=? j) with false by (symmetry; apply Nat.leb_gt; lia).
  reflexivity.
Qed.

Lemma world_eta w :
  {| step := step w; heap := heap w; buffers := buffers w;
     shaderModules := shaderModules w; pipelines := pipelines w;
     bindGroups := bindGroups w; canvasConfig := canvasConfig w;
     queue := queue w; trace := trace w |} = w.
Proof. destruct w; reflexivity. Qed.

(** The loop of [updateGrid] that writes [v] at every [k]-th index returns,
    with the fuel [updateGrid] gives it, and leaves [strided]. *)
Lemma fill_loop ref k v fuel :
  0 < k → (v < 2 ^ 32)%N →
  ∀ i xs w,
  heap w !! ref = Some (Uint32Array xs) →
  length xs - i < fuel →
  for_loop fuel
    (λ i, bind (array_length ref) (λ len, ret (i <? len)))
    (λ i, i + k)
    (λ i, array_set ref i v) i w
  = (Returned tt,
     set_heap (λ h, <[ref := Uint32Array (strided k v i xs)]> h) w).
Proof.
  intros Hk Hv. induction fuel as [| fuel IH]; intros i xs w Href Hfuel.
  - lia.
  - cbn [for_loop]. unfold bind at 1. unfold bind at 1. unfold array_length at 1, bind at 1, gets at 1.
    rewrite Href. cbn [ret ta_length]. 
    destruct (Nat.ltb_spec i (length xs)) as [Hlt | Hge].
    + unfold bind at 1. unfold array_set at 1, modify at 1.
      rewrite (IH (i + k) (<[i := v]> xs)).
      * f_equal. unfold set_heap. cbn. rewrite Href.
        rewrite N.mod_small by done. 
        rewrite list_insert_insert_eq, strided_step by done. done.
      * cbn. rewrite Href. rewrite N.mod_small by done.
        apply list_lookup_insert_eq. by eapply lookup_lt_Some.
      * rewrite length_insert. lia.
    + f_equal. rewrite strided_done by done. unfold set_heap.
      rewrite list_insert_id by done. symmetry. apply world_eta.
Qed.

(** ** One call of [updateGrid], executed on an arbitrary world *)

(** The laws of [bind] the execution below rewrites with. *)

Lemma bind_bind {A B C} (c : M A) (k1 : A → M B) (k2 : B → M C) w :
  bind (bind c k1) k2 w = bind c (λ x, bind (k1 x) k2) w.
Proof. unfold bind. destruct (c w) as [[v | e |] w']; reflexivity. Qed.

Lemma bind_modify {B} f (k : unit → M B) w : bind (modify f) k w = k tt (f w).
Proof. reflexivity. Qed.

Lemma bind_gets {A B} (f : World → A) (k : A → M B) w : bind (gets f) k w = k (f w) w.
Proof. reflexivity. Qed.

Lemma bind_ret {A B} (v : A) (k : A → M B) w : bind (ret v) k w = k v w.
Proof. reflexivity. Qed.

Lemma bind_throw {A B} e (k : A → M B) w : bind (throw e) k w = (Threw e, w).
Proof. reflexivity. Qed.

Lemma bind_returned {A B} (c : M A) (k : A → M B) w v w' :
  c w = (Returned v, w') → bind c k w = k v w'.
Proof. intros H. unfold bind. rewrite H. reflexivity. Qed.

(** A handle is the length of the store when the resource was created, so
    the resources of the current call sit at [length l + i]. *)

Lemma lookup_app_plus {A} (l l' : list A) i : (l ++ l') !! (length l + i) = l' !! i.
Proof. rewrite lookup_app_r by lia. f_equal. lia. Qed.

Lemma lookup_app_here {A} (l l' : list A) : (l ++ l') !! (length l) = l' !! 0.
Proof. rewrite <- (lookup_app_plus l l' 0). f_equal. lia. Qed.

Lemma insert_app_here {A} (l l' : list A) x : <[length l := x]> (l ++ l') = l ++ <[0 := x]> l'.
Proof. rewrite <- (insert_app_r l l' 0). f_equal. lia. Qed.

(** [wsimpl] writes a world out as a record; [mstep] runs one primitive
    statement; [lnorm] brings stores and handles back to the shape
    [l ++ new] and [length l + i]; [anorm] and [lens] compute byte lengths. *)

Ltac wsimpl :=
  unfold set_step, set_heap, set_buffers, set_shaderModules, set_pipelines,
    set_bindGroups, set_canvasConfig, set_queue, log;
  cbn [step heap buffers shaderModules pipelines bindGroups canvasConfig
       queue trace ta_length byteLength words buf_label buf_size buf_usage buf_data
       fst snd].

Ltac mstep :=
  first [ rewrite bind_bind | rewrite bind_modify | rewrite bind_gets
        | rewrite bind_ret ]; wsimpl.

Lemma add_1_1 n : n + 1 + 1 = n + 2.
Proof. lia. Qed.

Lemma add_2_1 n : n + 2 + 1 = n + 3.
Proof. lia. Qed.

Ltac lnorm :=
  repeat first
    [ rewrite length_app | rewrite <- app_assoc
    | rewrite add_1_1 | rewrite add_2_1
    | rewrite lookup_app_plus | rewrite lookup_app_here
    | rewrite insert_app_r | rewrite insert_app_here ];
  cbn [length app lookup list_lookup insert list_insert Nat.add].

Lemma div4 n : (4 * n) `div` 4 = n.
Proof. rewrite Nat.mul_comm. apply Nat.div_mul. lia. Qed.

(** A write at offset 0 of as many words as the buffer has replaces its
    contents. *)
Lemma overwrite_all {A} (old new : list A) n :
  length old = n → length new = n →
  take (0 `div` 4) old ++ new ++ drop (0 `div` 4 + n) old = new.
Proof.
  intros H1 H2. cbn. rewrite drop_ge by lia. apply app_nil_r.
Qed.

Ltac anorm :=
  unfold byteLength; cbn [ta_length length];
  rewrite ?length_replicate, ?div4.

(** [writeBuffer] of a host array that fills the buffer exactly: the buffer
    gets a copy of what the array holds at the time of the call. *)
Lemma writeBuffer_full buffer data arr bf s hp bs ms ps gs cfg q t :
  hp !! data = Some arr →
  bs !! buffer = Some bf →
  byteLength arr = buf_size bf →
  length (buf_data bf) = ta_length arr →
  writeBuffer buffer 0 data
    {| step := s; heap := hp; buffers := bs; shaderModules := ms;
       pipelines := ps; bindGroups := gs; canvasConfig := cfg; queue := q;
       trace := t |}
  = (Returned tt,
     {| step := s; heap := hp;
        buffers := <[buffer := {| buf_label := buf_label bf; buf_size := buf_size bf;
                                  buf_usage := buf_usage bf; buf_data := words arr |}]> bs;
        shaderModules := ms;
        pipelines := ps; bindGroups := gs; canvasConfig := cfg; queue := q;
        trace := t ++ [EvWriteBuffer buffer] |}).
Proof.
  intros Hd Hb Hsz Hlen. unfold writeBuffer. rewrite bind_gets. wsimpl.
  rewrite Hd. repeat mstep. rewrite Hb, Hsz. cbn [Nat.add].
  rewrite Nat.leb_refl.
  rewrite overwrite_all; [reflexivity | done |].
  destruct arr; cbn; by rewrite length_fmap.
Qed.

(** What the two loops of [updateGrid] leave in the host array. *)

Lemma strided_every_third n : strided 3 1 0 (replicate n 0%N) = every_third n.
Proof.
  apply list_eq. intros j. unfold strided, every_third.
  rewrite list_lookup_imap, list_lookup_fmap.
  destruct (decide (j < n)) as [Hlt | Hge].
  - rewrite lookup_replicate_2 by done.
    rewrite (proj2 (lookup_seq 0 n j j)) by (split; [reflexivity | done]).
    cbn. rewrite Nat.sub_0_r. by destruct (j mod 3 =? 0).
  - rewrite (proj1 (lookup_replicate_None n 0%N j)) by lia.
    rewrite lookup_ge_None_2 by (rewrite length_seq; lia). reflexivity.
Qed.

Lemma strided_all v xs : strided 1 v 0 xs = replicate (length xs) v.
Proof.
  apply list_eq. intros j. unfold strided. rewrite list_lookup_imap.
  destruct (xs !! j) as [x0 |] eqn:E.
  - apply lookup_lt_Some in E. rewrite lookup_replicate_2 by done.
    rewrite Nat.sub_0_r, Nat.mod_1_r. reflexivity.
  - apply lookup_ge_None in E.
    by rewrite (proj1 (lookup_replicate_None _ v j)) by lia.
Qed.

Lemma length_every_third n : length (every_third n) = n.
Proof. unfold every_third. by rewrite length_fmap, length_seq. Qed.

Ltac lens :=
  cbn [buf_size buf_data ta_length byteLength];
  rewrite ?strided_length, ?length_replicate, ?length_fmap; reflexivity.

(** [updateGrid] returns when the canvas hands out a texture and throws when
    it does not (it never runs out of fuel), and leaves the world [after]. *)
Lemma updateGrid_after G fmt acquired w :
  updateGrid G fmt acquired w
  = (if acquired then Returned tt else Threw "InvalidStateError",
     after G fmt acquired w).
Proof.
  destruct w as [s hp bs ms ps gs cfg q t].
  unfold updateGrid, new_Uint32Array, array_byteLength, createBuffer.
  repeat mstep. lnorm. repeat mstep. lnorm. repeat mstep. anorm. lnorm.
  fold (cells G).
  erewrite bind_returned; cycle 1.
  { apply fill_loop with (xs := replicate (cells G) 0%N); [lia | done | |].
    - wsimpl. lnorm. reflexivity.
    - rewrite length_replicate. unfold loop_fuel. fold (cells G). lia. }
  wsimpl. lnorm.
  erewrite bind_returned; cycle 1.
  { eapply writeBuffer_full; lnorm; try reflexivity; anorm; lens. }
  wsimpl. lnorm.
  erewrite bind_returned; cycle 1.
  { apply fill_loop with (xs := strided 3 1 0 (replicate (cells G) 0%N)); [lia | done | |].
    - wsimpl. lnorm. reflexivity.
    - rewrite strided_length, length_replicate. unfold loop_fuel. fold (cells G). lia. }
  wsimpl. lnorm.
  erewrite bind_returned; cycle 1.
  { eapply writeBuffer_full; lnorm; try reflexivity; anorm; lens. }
  wsimpl. lnorm.
  unfold new_Float32Array at 1. repeat mstep. lnorm. anorm. repeat mstep. lnorm.
  erewrite bind_returned; cycle 1.
  { eapply writeBuffer_full; lnorm; try reflexivity. }
  wsimpl. lnorm.
  unfold new_Float32Array at 1. repeat mstep. lnorm. anorm. repeat mstep. lnorm.
  erewrite bind_returned; cycle 1.
  { eapply writeBuffer_full; lnorm; try reflexivity. }
  wsimpl. lnorm.
  unfold createShaderModule, createRenderPipeline, createBindGroup, configure,
    createCommandEncoder, getCurrentTexture.
  repeat mstep. lnorm.
  rewrite strided_all, strided_every_third, length_every_third.
  change (1 `mod` 2)%N with 1%N.
  unfold after. wsimpl. fold (cells G).
  destruct acquired.
  - rewrite bind_ret, bind_gets. wsimpl.
    assert (Hpar : N.to_nat ((s + 1) `mod` 2) = 0 ∨ N.to_nat ((s + 1) `mod` 2) = 1).
    { assert (Hlt : ((s + 1) `mod` 2 < 2)%N) by (apply N.mod_upper_bound; lia).
      generalize dependent ((s + 1) `mod` 2)%N. intros m. lia. }
    destruct Hpar as [Hp | Hp]; rewrite Hp; cbn [lookup list_lookup].
    + unfold array_length. repeat mstep. lnorm. repeat mstep. unfold submit. repeat mstep.
      rewrite Nat.add_0_r. unfold modify. wsimpl. rewrite <- ?app_assoc. reflexivity.
    + unfold array_length. repeat mstep. lnorm. repeat mstep. unfold submit. repeat mstep.
      unfold modify. wsimpl. rewrite <- ?app_assoc. reflexivity.
  - rewrite bind_throw. rewrite !app_nil_r. reflexivity.
Qed.

Lemma tick_after G fmt acquired w :
  tick G fmt acquired w = after G fmt acquired w.
Proof. unfold tick. by rewrite updateGrid_after. Qed.

Lemma run_snoc G fmt schedule acquired w :
  run G fmt (schedule ++ [acquired]) w
  = tick G fmt acquired (run G fmt schedule w).
Proof. unfold run. by rewrite foldl_app. Qed.

(** The counter after a schedule is the number of ticks, whatever the
    canvas did. *)
Lemma step_run G fmt schedule w :
  step (run G fmt schedule w) = (step w + N.of_nat (length schedule))%N.
Proof.
  induction schedule as [| acquired schedule IH] using rev_ind.
  - cbn. lia.
  - rewrite run_snoc, tick_after, length_app. cbn [after step length].
    rewrite IH. lia.
Qed.

Lemma odd_succ_of_nat k : N.odd (N.of_nat k + 1) = Nat.even k.
Proof.
  replace (N.of_nat k + 1)%N with (N.succ (N.of_nat k)) by lia.
  rewrite N.odd_succ.
  induction k as [k IH] using lt_wf_ind.
  destruct k as [| [| k]]; [reflexivity | reflexivity |].
  replace (N.of_nat (S (S k))) with (N.succ (N.succ (N.of_nat k))) by lia.
  rewrite N.even_succ_succ. rewrite IH by lia. reflexivity.
Qed.

Lemma parity_index s :
  N.to_nat (s `mod` 2) = if N.odd s then 1 else 0.
Proof.
  rewrite <- N.bit0_mod, N.bit0_odd. by destruct (N.odd s).
Qed.

(** ** The frame one call submits *)

Lemma submitted_frame_acquired G fmt w :
  submitted_frame G fmt true w
  = Some (expected_frame G fmt (N.odd (step w + 1))).
Proof.
  unfold submitted_frame, submissions_since. rewrite tick_after.
  cbn [after queue]. rewrite drop_app_length.
  unfold frame_of. cbn [foldl replay_command pass_start ps_begin ps_pipeline
    ps_vertexBuffer ps_bindGroup ps_draw after pipelines shaderModules buffers
    bindGroups].
  rewrite parity_index.
  cbn [mbind option_bind].
  rewrite !lookup_app_here. cbn [lookup list_lookup mbind option_bind rp_vertex_module].
  rewrite !lookup_app_here. cbn [lookup list_lookup mbind option_bind].
  rewrite (lookup_app_plus (buffers w)). cbn [lookup list_lookup mbind option_bind].
  destruct (N.odd (step w + 1)).
  - rewrite (lookup_app_plus (bindGroups w)).
    cbn [lookup list_lookup mbind option_bind bg_entries assoc Nat.eqb].
    rewrite !(lookup_app_plus (buffers w)). reflexivity.
  - rewrite Nat.add_0_r, lookup_app_here.
    cbn [lookup list_lookup mbind option_bind bg_entries assoc Nat.eqb].
    rewrite (lookup_app_plus (buffers w)), lookup_app_here. reflexivity.
Qed.

Lemma submitted_frame_failed G fmt w :
  submitted_frame G fmt false w = None.
Proof.
  unfold submitted_frame, submissions_since. rewrite tick_after.
  cbn [after queue]. rewrite app_nil_r, drop_all. reflexivity.
Qed.

(** The frame of invocation [k], counted from 0. *)
Lemma invocation_frame_acquired G fmt schedule k :
  schedule !! k = Some true →
  invocation_frame G fmt schedule k
  = Some (expected_frame G fmt (Nat.even k)).
Proof.
  intros Hk. unfold invocation_frame. rewrite Hk. cbn [mbind option_bind].
  rewrite submitted_frame_acquired, step_run. cbn [initial step].
  rewrite length_take_le by (apply lookup_lt_Some in Hk; lia).
  rewrite N.add_0_l, odd_succ_of_nat. reflexivity.
Qed.

(** ** Counting over schedules *)

Lemma count_app p (l1 l2 : list Event) :
  count p (l1 ++ l2) = count p l1 + count p l2.
Proof. unfold count. by rewrite filter_app, length_app. Qed.

Lemma count_cons p (e : Event) (t : list Event) :
  count p (e :: t) = (if p e then 1 else 0) + count p t.
Proof.
  unfold count. rewrite filter_cons.
  destruct (p e); by destruct (decide _).
Qed.

Lemma count_nil p : count p [] = 0.
Proof. reflexivity. Qed.

Lemma run_cons G fmt acquired schedule w :
  run G fmt (acquired :: schedule) w
  = run G fmt schedule (tick G fmt acquired w).
Proof. reflexivity. Qed.

(** A buffer, once created, is never written by a later call. *)
Lemma buffers_run_lookup G fmt later w h :
  h < length (buffers w) →
  buffers (run G fmt later w) !! h = buffers w !! h.
Proof.
  revert w. induction later as [| acquired later IH]; intros w Hh; [done |].
  rewrite run_cons, IH.
  - rewrite tick_after. cbn [after buffers]. by apply lookup_app_l.
  - rewrite tick_after. cbn [after buffers]. rewrite length_app. lia.
Qed.

Lemma uploads_resolved_tick G fmt acquired w :
  uploads_resolved w → uploads_resolved (tick G fmt acquired w).
Proof.
  intros Hw h. rewrite tick_after. cbn [after trace buffers].
  rewrite length_app. cbn [length].
  rewrite !elem_of_app. intros [Hin | [Hin | Hin]].
  - apply Hw in Hin. lia.
  - unfold setup_calls in Hin.
    repeat (apply elem_of_cons in Hin as [Hin | Hin]; [inversion Hin; lia |]).
    by apply elem_of_nil in Hin.
  - destruct acquired; [| by apply elem_of_nil in Hin].
    apply list_elem_of_singleton in Hin. discriminate.
Qed.

Lemma uploads_resolved_run G fmt schedule :
  uploads_resolved (run G fmt schedule initial).
Proof.
  induction schedule as [| acquired schedule IH] using rev_ind.
  - intros h Hin. by apply elem_of_nil in Hin.
  - rewrite run_snoc. by apply uploads_resolved_tick.
Qed.

(** Old uploads keep their target when the device gets more buffers. *)
Lemma count_uploads_extend label bs ext t :
  (∀ h, EvWriteBuffer h ∈ t → h < length bs) →
  count (is_upload_to (bs ++ ext) label) t = count (is_upload_to bs label) t.
Proof.
  induction t as [| e t IH]; intros Ht; [done |].
  assert (E : is_upload_to (bs ++ ext) label e = is_upload_to bs label e).
  { destruct e; try reflexivity. cbn.
    rewrite lookup_app_l; [done |]. apply Ht. left. }
  assert (IH' : count (is_upload_to (bs ++ ext) label) t
                = count (is_upload_to bs label) t).
  { apply IH. intros h Hh. apply Ht. by right. }
  unfold count in *. rewrite !filter_cons, E.
  destruct (decide (is_upload_to bs label e = true)); cbn; by rewrite IH'.
Qed.

(** What one call adds to each count. *)
Lemma counts_tick G fmt acquired w :
  let w' := tick G fmt acquired w in
  count is_submit (trace w')
    = count is_submit (trace w) + (if acquired then 1 else 0)
  ∧ count is_createRenderPipeline (trace w')
    = count is_createRenderPipeline (trace w) + 1
  ∧ count is_createBindGroup (trace w')
    = count is_createBindGroup (trace w) + 2
  ∧ count (is_createBuffer "Cell State A") (trace w')
    = count (is_createBuffer "Cell State A") (trace w) + 1
  ∧ count (is_createBuffer "Cell State B") (trace w')
    = count (is_createBuffer "Cell State B") (trace w) + 1.
Proof.
  cbn zeta. rewrite tick_after. cbn [after trace]. rewrite !count_app.
  destruct acquired; repeat split.
Qed.

Lemma uploads_tick G fmt acquired w label :
  uploads_resolved w →
  label = "Cell State A" ∨ label = "Cell State B" →
  uploads_to label (tick G fmt acquired w) = uploads_to label w + 1.
Proof.
  intros Hw Hl. unfold uploads_to. rewrite tick_after. cbn [after trace buffers].
  rewrite !count_app, count_uploads_extend by exact Hw.
  f_equal.
  assert (Hs : ∀ p, count p (if acquired then [EvSubmit] else [])
                    = if acquired then (if p EvSubmit then 1 else 0) else 0).
  { intros p. destruct acquired; [| reflexivity].
    rewrite count_cons, count_nil. lia. }
  rewrite Hs. cbn [is_upload_to].
  unfold setup_calls. rewrite !count_cons, count_nil. cbn [is_upload_to].
  rewrite (lookup_app_here (buffers w)).
  rewrite !(lookup_app_plus (buffers w)). cbn [lookup list_lookup buf_label].
  destruct Hl as [-> | ->]; by destruct acquired.
Qed.

(* ===================================================================== *)
(** * Facts about the shader stages *)
(* ===================================================================== *)

Section ShaderFacts.
Import Shader Host Observe.
Local Open Scope Q_scope.

(** ** Naturals as rationals *)









(** ** Conversions and the decode of the instance index *)








(** ** The position on one axis *)





End ShaderFacts.

(** ** The position within the slot of the cell *)

Section SlotFacts.
Import Shader Host Observe.
Local Open Scope Q_scope.










(** ** The slots *)











End SlotFacts.

(* ===================================================================== *)
(** * The frame driver *)
(* ===================================================================== *)

(** ** The claims about the frame driver *)

Lemma mapM_u32_word (l : list N) : mapM u32_word (U32 <$> l) = Some l.
Proof.
  induction l as [| n l IH]; [reflexivity |].
  cbn. cbn in IH. rewrite IH. reflexivity.
Qed.

Lemma frame_bindings_expected G fmt second :
  frame_bindings (expected_frame G fmt second)
  = Some (cell_bindings G (frame_states G second)).
Proof.
  unfold frame_bindings. cbn [expected_frame fr_uniform fr_cellState uniform_grid
    mbind option_bind].
  rewrite mapM_u32_word. reflexivity.
Qed.

(** The vertex stage of a frame of the script runs [vertexMain] on the
    vertices of [vertices_literal] under the bindings of that frame. *)
Lemma vertex_stage_expected G fmt second i v p :
  vertex_position (F32 <$> vertices_literal) v = Some p →
  vertex_stage (expected_frame G fmt second) i v
  = Some (Shader.vertexMain (cell_bindings G (frame_states G second))
            {| Shader.vi_pos := p; Shader.vi_instance := i |}).
Proof.
  intros Hv. unfold vertex_stage. rewrite frame_bindings_expected.
  cbn [mbind option_bind expected_frame fr_vertexData]. rewrite Hv. reflexivity.
Qed.

(** C1, as stated, fails at the first invocation: [k = 0] is even, yet the
    frame of invocation 0 sets the second bind group and so reads buffer B,
    because [step] is incremented before [bindGroups[step % 2]] is read. *)
Lemma C1_first_invocation_reads_B :
  ∃ f, invocation_frame 32 "bgra8unorm" [true] 0 = Some f
       ∧ fr_groupLabel f = "Cell renderer bind group B"
       ∧ fr_stateLabel f = "Cell State B"
       ∧ fr_stateLabel f
         ≠ (if Nat.even 0 then "Cell State A" else "Cell State B").
Proof.
  rewrite invocation_frame_acquired by reflexivity.
  eexists. split; [reflexivity |]. cbn. repeat split. discriminate.
Qed.

(** C1, amended: for every invocation [k], counted from 0, that gets its
    canvas texture, [step] reads [k + 1] when the bind group is chosen, so the
    frame sets bind group B and its vertex stage reads buffer B (all ones)
    when [k] is even, and sets bind group A and reads buffer A (every third
    cell) when [k] is odd. *)
Theorem C1_binding_set_by_parity G fmt schedule k :
  schedule !! k = Some true →
  step (run G fmt (take (S k) schedule) initial) = N.of_nat (k + 1)
  ∧ ∃ f, invocation_frame G fmt schedule k = Some f
       ∧ fr_groupLabel f
         = (if Nat.even k then "Cell renderer bind group B"
            else "Cell renderer bind group A")
       ∧ fr_stateLabel f
         = (if Nat.even k then "Cell State B" else "Cell State A")
       ∧ frame_bindings f
         = Some (cell_bindings G
                   (if Nat.even k then replicate (cells G) 1%N
                    else every_third (cells G))).
Proof.
  intros Hk. split.
  - rewrite step_run. cbn [initial step].
    rewrite length_take_le by (apply lookup_lt_Some in Hk; lia). lia.
  - rewrite (invocation_frame_acquired G fmt schedule k Hk).
    eexists. split; [reflexivity |].
    rewrite frame_bindings_expected. unfold frame_states.
    by destruct (Nat.even k).
Qed.

Lemma C1_binding_set_by_parity_witness :
  ∃ f, invocation_frame 2 "bgra8unorm" [true; true] 1 = Some f
       ∧ fr_stateLabel f = "Cell State A"
       ∧ frame_bindings f = Some (cell_bindings 2 [1; 0; 0; 1]%N).
Proof.
  destruct (C1_binding_set_by_parity 2 "bgra8unorm" [true; true] 1 eq_refl)
    as (_ & f & Hf & _ & Hl & Hb).
  exists f. repeat split; assumption.
Defined.

(** C2, as stated, fails after two invocations: the pipeline has been
    assembled twice, four bind groups built, and each state buffer created
    and uploaded twice, because all of that is done inside [updateGrid]. *)
Lemma C2_two_invocations_rebuild :
  let w := run 32 "bgra8unorm" [true; true] initial in
  count is_submit (trace w) = 2
  ∧ count is_createRenderPipeline (trace w) = 2
  ∧ count is_createRenderPipeline (trace w) ≠ 1
  ∧ count is_createBindGroup (trace w) = 4
  ∧ count (is_createBuffer "Cell State A") (trace w) = 2
  ∧ count (is_createBuffer "Cell State B") (trace w) = 2
  ∧ uploads_to "Cell State A" w = 2
  ∧ uploads_to "Cell State B" w = 2.
Proof. vm_compute. repeat split. discriminate. Qed.

(** C2, amended: every invocation of the frame driver assembles the
    pipeline once, builds the two bind groups, and creates and uploads each
    of the two state buffers once; after a schedule of [M] invocations there
    have been [M] pipelines, [2 M] bind groups, [M] buffers of each label and
    [M] uploads into each, and one draw submission per invocation that got
    its canvas texture ([M] of them when all did). *)
Theorem C2_every_invocation_rebuilds G fmt schedule :
  let w := run G fmt schedule initial in
  let M := length schedule in
  count is_submit (trace w)
    = length (filter (λ acquired, acquired = true) schedule)
  ∧ length (queue w) = count is_submit (trace w)
  ∧ count is_submit (trace (run G fmt (replicate M true) initial)) = M
  ∧ count is_createRenderPipeline (trace w) = M
  ∧ length (pipelines w) = M
  ∧ count is_createBindGroup (trace w) = 2 * M
  ∧ count (is_createBuffer "Cell State A") (trace w) = M
  ∧ count (is_createBuffer "Cell State B") (trace w) = M
  ∧ uploads_to "Cell State A" w = M
  ∧ uploads_to "Cell State B" w = M.
Proof.
  cbn zeta.
  assert (Hgen : ∀ schedule,
    count is_submit (trace (run G fmt schedule initial))
      = length (filter (λ acquired, acquired = true) schedule)
    ∧ length (queue (run G fmt schedule initial))
      = count is_submit (trace (run G fmt schedule initial))
    ∧ count is_createRenderPipeline (trace (run G fmt schedule initial))
      = length schedule
    ∧ length (pipelines (run G fmt schedule initial)) = length schedule
    ∧ count is_createBindGroup (trace (run G fmt schedule initial))
      = 2 * length schedule
    ∧ count (is_createBuffer "Cell State A") (trace (run G fmt schedule initial))
      = length schedule
    ∧ count (is_createBuffer "Cell State B") (trace (run G fmt schedule initial))
      = length schedule
    ∧ uploads_to "Cell State A" (run G fmt schedule initial) = length schedule
    ∧ uploads_to "Cell State B" (run G fmt schedule initial) = length schedule).
  { clear schedule. intros schedule.
    induction schedule as [| acquired schedule IH] using rev_ind.
    - repeat split; reflexivity.
    - destruct IH as (I1 & I2 & I3 & I4 & I5 & I6 & I7 & I8 & I9).
      rewrite run_snoc.
      pose proof (counts_tick G fmt acquired (run G fmt schedule initial))
        as (T1 & T2 & T3 & T4 & T5). cbn zeta in *.
      pose proof (uploads_resolved_run G fmt schedule) as Hres.
      rewrite !(uploads_tick G fmt acquired _ _ Hres) by tauto.
      rewrite T1, T2, T3, T4, T5, I1, I3, I5, I6, I7, I8, I9.
      rewrite filter_app, !length_app. cbn [length].
      assert (Hq : length (queue (tick G fmt acquired (run G fmt schedule initial)))
                   = length (queue (run G fmt schedule initial))
                     + (if acquired then 1 else 0)).
      { rewrite tick_after. cbn [after queue]. rewrite length_app.
        by destruct acquired. }
      assert (Hp : length (pipelines (tick G fmt acquired (run G fmt schedule initial)))
                   = length (pipelines (run G fmt schedule initial)) + 1).
      { rewrite tick_after. cbn [after pipelines]. by rewrite length_app. }
      rewrite Hq, Hp, I2, I1, I4.
      assert (Hf : length (filter (λ acquired0, acquired0 = true) [acquired])
                   = if acquired then 1 else 0) by (by destruct acquired).
      rewrite Hf. repeat split; lia. }
  destruct (Hgen schedule) as (I1 & I2 & I3 & I4 & I5 & I6 & I7 & I8 & I9).
  destruct (Hgen (replicate (length schedule) true)) as (J1 & _).
  repeat split; try assumption.
  rewrite J1. clear.
  induction (length schedule) as [| M IH]; [reflexivity |].
  cbn [replicate]. rewrite filter_cons.
  destruct (decide (true = true)); [| done]. cbn [length]. by rewrite IH.
Qed.

(** ** The two state buffers *)

Lemma lookup_every_third n i :
  every_third n !! i
  = if i <? n then Some (if i mod 3 =? 0 then 1%N else 0%N) else None.
Proof.
  unfold every_third. rewrite list_lookup_fmap.
  destruct (Nat.ltb_spec i n) as [Hlt | Hge].
  - by rewrite (proj2 (lookup_seq 0 n i i)) by (split; [reflexivity | done]).
  - by rewrite lookup_ge_None_2 by (rewrite length_seq; lia).
Qed.

Lemma lookup_ones n i :
  replicate n 1%N !! i = if i <? n then Some 1%N else None.
Proof.
  destruct (Nat.ltb_spec i n) as [Hlt | Hge].
  - by apply lookup_replicate_2.
  - by apply lookup_replicate_None.
Qed.

(** Buffer B as the code fills it: every cell holds 1. *)
Lemma buffer_B_all_ones G fmt acquired w :
  ∃ bf, buffers (tick G fmt acquired w) !! (length (buffers w) + 1) = Some bf
        ∧ buf_label bf = "Cell State B"
        ∧ ∀ i, buf_data bf !! i
               = if i <? cells G then Some (U32 1) else None.
Proof.
  rewrite tick_after. cbn [after buffers]. rewrite lookup_app_plus.
  eexists. split; [reflexivity |]. split; [reflexivity |].
  intros i. cbn [buf_data]. rewrite list_lookup_fmap, lookup_ones.
  by destruct (i <? cells G).
Qed.

(** C3: buffer B is not filled by the parity of the index, although the
    comment above its loop announces every second cell.  At the even index 0
    of the 32 by 32 grid, where an alternating pattern has 0, buffer B holds
    1, as it does at every index: the loop stores the constant [1 % 2]. *)
Theorem C3_buffer_B_at_index_0 :
  ∃ bf, buffers (tick 32 "bgra8unorm" true initial) !! 1 = Some bf
        ∧ buf_label bf = "Cell State B"
        ∧ 0 mod 2 ≠ 1
        ∧ buf_data bf !! 0 = Some (U32 1)
        ∧ buf_data bf = replicate 1024 (U32 1).
Proof.
  destruct (buffer_B_all_ones 32 "bgra8unorm" true initial) as (bf & Hb & Hl & Hd).
  exists bf. split; [exact Hb |]. split; [exact Hl |]. split; [discriminate |].
  split; [apply (Hd 0) |].
  apply list_eq. intros i. rewrite Hd.
  change (cells 32) with 1024.
  destruct (Nat.ltb_spec i 1024) as [Hlt | Hge].
  - symmetry. by apply lookup_replicate_2.
  - symmetry. by apply lookup_replicate_None.
Qed.

(** C4: when a call of [updateGrid] is over, whether or not it got its
    canvas texture, the buffer it created as "Cell State A" holds 1 at the
    multiples of three and 0 at the other indices below [N * N], although the
    host array it was uploaded from has since been overwritten with ones and
    uploaded into buffer B; and no later call changes it. *)
Theorem C4_buffer_A_every_third G fmt acquired w later :
  let w' := tick G fmt acquired w in
  ∃ bfA bfB,
    buffers (run G fmt later w') !! length (buffers w) = Some bfA
    ∧ buf_label bfA = "Cell State A"
    ∧ (∀ i, buf_data bfA !! i
            = if i <? cells G
              then Some (U32 (if i mod 3 =? 0 then 1 else 0)) else None)
    ∧ heap w' !! length (heap w) = Some (Uint32Array (replicate (cells G) 1%N))
    ∧ buffers (run G fmt later w') !! (length (buffers w) + 1) = Some bfB
    ∧ buf_label bfB = "Cell State B"
    ∧ buf_data bfB = words (Uint32Array (replicate (cells G) 1%N)).
Proof.
  cbn zeta.
  assert (Hlen : length (buffers (tick G fmt acquired w)) = length (buffers w) + 4).
  { rewrite tick_after. cbn [after buffers]. by rewrite length_app. }
  rewrite !buffers_run_lookup by lia.
  rewrite tick_after. cbn [after buffers heap].
  rewrite lookup_app_here, (lookup_app_plus (buffers w)), lookup_app_here.
  eexists _, _. split; [reflexivity |]. split; [reflexivity |].
  split; [| repeat split].
  intros i. cbn [buf_data]. rewrite list_lookup_fmap, lookup_every_third.
  by destruct (i <? cells G).
Qed.

(** ** Failed acquisition of the canvas texture *)

(** C9, as stated, fails on its second part: the fifth invocation fails to
    get its texture, submits nothing and leaves [step] at 5, but by then it
    has created and uploaded four buffers, a pipeline and two bind groups,
    so the device does not hold what it held before. *)
Lemma C9_failed_step_allocates :
  let w := run 32 "bgra8unorm" [true; true; true; true] initial in
  let w' := tick 32 "bgra8unorm" false w in
  step w' = 5%N
  ∧ queue w' = queue w
  ∧ length (buffers w') = length (buffers w) + 4
  ∧ buffers w' ≠ buffers w
  ∧ pipelines w' ≠ pipelines w
  ∧ bindGroups w' ≠ bindGroups w.
Proof.
  cbn zeta.
  split; [vm_compute; reflexivity |].
  split; [vm_compute; reflexivity |].
  split; [vm_compute; reflexivity |].
  split; [| split]; intros E.
  - assert (L : length (buffers (tick 32 "bgra8unorm" false
                 (run 32 "bgra8unorm" [true; true; true; true] initial)))
                = 20) by (vm_compute; reflexivity).
    assert (L0 : length (buffers
                 (run 32 "bgra8unorm" [true; true; true; true] initial))
                 = 16) by (vm_compute; reflexivity).
    rewrite E, L0 in L. discriminate L.
  - assert (L : length (pipelines (tick 32 "bgra8unorm" false
                 (run 32 "bgra8unorm" [true; true; true; true] initial)))
                = 5) by (vm_compute; reflexivity).
    assert (L0 : length (pipelines
                 (run 32 "bgra8unorm" [true; true; true; true] initial))
                 = 4) by (vm_compute; reflexivity).
    rewrite E, L0 in L. discriminate L.
  - assert (L : length (bindGroups (tick 32 "bgra8unorm" false
                 (run 32 "bgra8unorm" [true; true; true; true] initial)))
                = 10) by (vm_compute; reflexivity).
    assert (L0 : length (bindGroups
                 (run 32 "bgra8unorm" [true; true; true; true] initial))
                 = 8) by (vm_compute; reflexivity).
    rewrite E, L0 in L. discriminate L.
Qed.

(** C9, amended: when an invocation fails to get its canvas texture,
    [updateGrid] throws; nothing is submitted; [step] keeps the value the
    invocation gave it (the number of invocations so far); every resource
    the device held is unchanged, and the resources this invocation created
    before the failure (four buffers, a shader module, a pipeline, two bind
    groups) have been added; and the next invocation, if it gets its texture,
    submits the frame of its parity, the same frame it would have submitted
    had this invocation succeeded. *)
Theorem C9_failed_acquisition G fmt schedule :
  let w := run G fmt schedule initial in
  let w' := tick G fmt false w in
  fst (updateGrid G fmt false w) = Threw "InvalidStateError"
  ∧ queue w' = queue w
  ∧ count is_submit (trace w') = count is_submit (trace w)
  ∧ step w' = N.of_nat (length schedule + 1)
  ∧ (∃ new, buffers w' = buffers w ++ new ∧ length new = 4)
  ∧ (∃ new, shaderModules w' = shaderModules w ++ new ∧ length new = 1)
  ∧ (∃ new, pipelines w' = pipelines w ++ new ∧ length new = 1)
  ∧ (∃ new, bindGroups w' = bindGroups w ++ new ∧ length new = 2)
  ∧ submitted_frame G fmt true w'
    = Some (expected_frame G fmt (Nat.even (length schedule + 1)))
  ∧ submitted_frame G fmt true w'
    = submitted_frame G fmt true (tick G fmt true w).
Proof.
  cbn zeta.
  split; [by rewrite updateGrid_after |].
  pose proof (counts_tick G fmt false (run G fmt schedule initial)) as (T1 & _).
  cbn zeta in T1. rewrite T1, Nat.add_0_r.
  rewrite !submitted_frame_acquired.
  rewrite !tick_after. cbn [after queue step buffers shaderModules pipelines bindGroups].
  rewrite step_run. cbn [initial step].
  split; [by rewrite app_nil_r |]. split; [reflexivity |].
  split; [lia |].
  split; [eexists; split; reflexivity |].
  split; [eexists; split; reflexivity |].
  split; [eexists; split; reflexivity |].
  split; [eexists; split; reflexivity |].
  split; [| reflexivity].
  replace (0 + N.of_nat (length schedule) + 1 + 1)%N
    with (N.of_nat (length schedule + 1) + 1)%N by lia.
  by rewrite odd_succ_of_nat.
Qed.

(** ** Frames of equal parity *)

Lemma even_of_mod2 j k : j mod 2 = k mod 2 → Nat.even j = Nat.even k.
Proof.
  intros E. rewrite <- !Nat.negb_odd. f_equal.
  assert (H : Nat.b2n (Nat.odd j) = Nat.b2n (Nat.odd k)).
  { rewrite <- !Nat.bit0_odd, !Nat.bit0_mod. exact E. }
  destruct (Nat.odd j), (Nat.odd k); cbn in H; congruence.
Qed.

(** C10: two invocations that both get their canvas texture and whose
    indices have the same parity submit the same frame (clear colour,
    pipeline, vertex data, uniform values, state buffer contents and draw
    parameters), whatever happened at the other invocations of their
    schedules. *)
Theorem C10_frame_depends_on_parity G fmt schedule1 schedule2 j k :
  schedule1 !! j = Some true →
  schedule2 !! k = Some true →
  j mod 2 = k mod 2 →
  ∃ f, invocation_frame G fmt schedule1 j = Some f
       ∧ invocation_frame G fmt schedule2 k = Some f.
Proof.
  intros Hj Hk Hpar.
  rewrite (invocation_frame_acquired G fmt schedule1 j Hj).
  rewrite (invocation_frame_acquired G fmt schedule2 k Hk).
  rewrite (even_of_mod2 j k Hpar). eexists. split; reflexivity.
Qed.

Lemma C10_frame_depends_on_parity_witness :
  ∃ f, invocation_frame 2 "bgra8unorm" [true; true; true] 0 = Some f
       ∧ invocation_frame 2 "bgra8unorm" [false; true; true] 2 = Some f.
Proof.
  apply (C10_frame_depends_on_parity 2 "bgra8unorm"
           [true; true; true] [false; true; true] 0 2); reflexivity.
Defined.

(* ===================================================================== *)
(** * The shader stages *)
(* ===================================================================== *)

Section ShaderClaims.
Import Shader Host Observe.
Local Open Scope Q_scope.



















End ShaderClaims.

(* ===================================================================== *)
(** * Further properties of the main script *)
(* ===================================================================== *)

Section Further.

Import Observe.

(** ** Resources are never touched again *)

Lemma stores_tick G fmt acquired w :
  (∃ new, buffers (tick G fmt acquired w) = buffers w ++ new)
  ∧ (∃ new, shaderModules (tick G fmt acquired w) = shaderModules w ++ new)
  ∧ (∃ new, pipelines (tick G fmt acquired w) = pipelines w ++ new)
  ∧ (∃ new, bindGroups (tick G fmt acquired w) = bindGroups w ++ new).
Proof.
  rewrite tick_after. cbn [after buffers shaderModules pipelines bindGroups].
  repeat split; eexists; reflexivity.
Qed.

Lemma stores_run G fmt later w :
  (∃ new, buffers (run G fmt later w) = buffers w ++ new)
  ∧ (∃ new, shaderModules (run G fmt later w) = shaderModules w ++ new)
  ∧ (∃ new, pipelines (run G fmt later w) = pipelines w ++ new)
  ∧ (∃ new, bindGroups (run G fmt later w) = bindGroups w ++ new).
Proof.
  induction later as [| acquired later IH] using rev_ind.
  - cbn. repeat split; exists []; by rewrite app_nil_r.
  - rewrite run_snoc.
    destruct IH as ((b1 & Hb) & (m1 & Hm) & (p1 & Hp) & (g1 & Hg)).
    destruct (stores_tick G fmt acquired (run G fmt later w))
      as ((b2 & Hb2) & (m2 & Hm2) & (p2 & Hp2) & (g2 & Hg2)).
    rewrite Hb2, Hm2, Hp2, Hg2, Hb, Hm, Hp, Hg.
    repeat split; eexists; by rewrite <- app_assoc.
Qed.

(** What a command buffer draws depends on the stores only through the
    handles it resolves, so it is kept when the stores grow. *)
Lemma frame_of_grow w w' commandBuffer f :
  (∃ new, buffers w' = buffers w ++ new) →
  (∃ new, shaderModules w' = shaderModules w ++ new) →
  (∃ new, pipelines w' = pipelines w ++ new) →
  (∃ new, bindGroups w' = bindGroups w ++ new) →
  frame_of w commandBuffer = Some f →
  frame_of w' commandBuffer = Some f.
Proof.
  intros (b1 & Hb) (m1 & Hm) (p1 & Hp) (g1 & Hg).
  unfold frame_of. rewrite Hb, Hm, Hp, Hg.
  generalize (foldl replay_command pass_start commandBuffer). intros s H.
  destruct (ps_begin s) as [[[l c] st] |]; [| discriminate].
  destruct (ps_pipeline s) as [p |]; [| discriminate].
  cbn [mbind option_bind] in *.
  destruct (pipelines w !! p) as [pl |] eqn:Epl; [| discriminate].
  rewrite (lookup_app_l_Some _ _ _ _ Epl). cbn [mbind option_bind] in *.
  destruct (shaderModules w !! rp_vertex_module pl) as [vm |] eqn:Evm; [| discriminate].
  rewrite (lookup_app_l_Some _ _ _ _ Evm). cbn [mbind option_bind] in *.
  destruct (ps_vertexBuffer s) as [vb |]; [| discriminate].
  cbn [mbind option_bind] in *.
  destruct (buffers w !! vb) as [vbuf |] eqn:Evb; [| discriminate].
  rewrite (lookup_app_l_Some _ _ _ _ Evb). cbn [mbind option_bind] in *.
  destruct (ps_bindGroup s) as [gr |]; [| discriminate].
  cbn [mbind option_bind] in *.
  destruct (bindGroups w !! gr) as [group |] eqn:Egr; [| discriminate].
  rewrite (lookup_app_l_Some _ _ _ _ Egr). cbn [mbind option_bind] in *.
  destruct (assoc 0 (bg_entries group)) as [ub |]; [| discriminate].
  cbn [mbind option_bind] in *.
  destruct (buffers w !! ub) as [ubuf |] eqn:Eub; [| discriminate].
  rewrite (lookup_app_l_Some _ _ _ _ Eub). cbn [mbind option_bind] in *.
  destruct (assoc 1 (bg_entries group)) as [sb |]; [| discriminate].
  cbn [mbind option_bind] in *.
  destruct (buffers w !! sb) as [sbuf |] eqn:Esb; [| discriminate].
  rewrite (lookup_app_l_Some _ _ _ _ Esb). cbn [mbind option_bind] in *.
  exact H.
Qed.

(** X2: a command buffer that draws the frame [f] in some world still draws
    [f] after any number of later ticks, whether they get their texture or
    not: no tick writes to a buffer, pipeline, shader module or bind group
    made before it. *)
Theorem submitted_frame_is_stable G fmt (w : World)
    (commandBuffer : list Command) (f : Frame) (later : list bool) :
  frame_of w commandBuffer = Some f →
  frame_of (run G fmt later w) commandBuffer = Some f.
Proof.
  destruct (stores_run G fmt later w) as (Hb & Hm & Hp & Hg).
  by apply frame_of_grow.
Qed.


Lemma submitted_frame_is_stable_witness :
  frame_of (run 2 "bgra8unorm" [false; true] (tick 2 "bgra8unorm" true initial))
    [ BeginRenderPass "clear" {| r := 0; g := 0; b := 0.4; a := 1.0 |} "store";
      SetPipeline 0; SetVertexBuffer 0 3; SetBindGroup 0 1; Draw 6 4; EndPass ]
  = Some (expected_frame 2 "bgra8unorm" true).
Proof.
  apply (submitted_frame_is_stable 2 "bgra8unorm"
           (tick 2 "bgra8unorm" true initial)).
  vm_compute. reflexivity.
Defined.

(** ** The queue *)

(** The command buffer a tick submits, and the frame it draws. *)
Lemma queue_tick G fmt acquired w :
  ∃ new, queue (tick G fmt acquired w) = queue w ++ new
  ∧ frame_of (tick G fmt acquired w) <$> new
    = if acquired
      then [Some (expected_frame G fmt (N.odd (step w + 1)))] else [].
Proof.
  pose proof (submitted_frame_acquired G fmt w) as Hf.
  unfold submitted_frame, submissions_since in Hf.
  rewrite tick_after in *. cbn [after queue] in *.
  rewrite drop_app_length in Hf.
  eexists. split; [reflexivity |].
  destruct acquired; [| reflexivity].
  cbn [fmap list_fmap]. by rewrite Hf.
Qed.

Lemma frames_grow w w' (q : list (list Command)) (fs : list Frame) :
  (∃ new, buffers w' = buffers w ++ new) →
  (∃ new, shaderModules w' = shaderModules w ++ new) →
  (∃ new, pipelines w' = pipelines w ++ new) →
  (∃ new, bindGroups w' = bindGroups w ++ new) →
  frame_of w <$> q = Some <$> fs →
  frame_of w' <$> q = Some <$> fs.
Proof.
  intros Hb Hm Hp Hg. revert fs.
  induction q as [| cb q IH]; intros [| f fs] H; try discriminate; [done |].
  cbn [fmap list_fmap] in *. injection H as Hf Hq.
  rewrite (frame_of_grow w w' cb f Hb Hm Hp Hg Hf).
  f_equal. by apply IH.
Qed.

(** X3: the queue holds exactly one command buffer per tick that got its
    texture, in the order of the ticks, and the buffer of tick [k] (counted
    from 0) draws the frame of bind group B when [k] is even and of bind
    group A when [k] is odd; ticks that failed leave no entry. *)
Theorem queue_is_fifo G fmt (schedule : list bool) :
  queue_frames (run G fmt schedule initial)
  = Some <$> scheduled_frames G fmt schedule.
Proof.
  unfold queue_frames, scheduled_frames.
  induction schedule as [| acquired schedule IH] using rev_ind; [reflexivity |].
  rewrite run_snoc.
  destruct (queue_tick G fmt acquired (run G fmt schedule initial))
    as (new & Hq & Hnew).
  destruct (stores_tick G fmt acquired (run G fmt schedule initial))
    as (Hb & Hm & Hp & Hg).
  rewrite Hq, fmap_app, Hnew.
  rewrite (frames_grow _ _ _ _ Hb Hm Hp Hg IH).
  rewrite imap_app, filter_app, !fmap_app. f_equal.
  rewrite step_run. cbn [initial step imap].
  rewrite N.add_0_l, odd_succ_of_nat, Nat.add_0_r.
  rewrite filter_cons, filter_nil. cbn [snd].
  destruct acquired; by destruct (decide _).
Qed.


(** ** Device resources *)

(** X4: after [M] ticks the host has made [3 M] typed arrays and the device
    holds [4 M] buffers, [M] shader modules, [M] pipelines and [2 M] bind
    groups, taking [M * (8 N² + 56)] bytes of buffer memory, whether or not
    the ticks got their texture: every tick allocates, none releases; the
    canvas is configured with the preferred format from the first tick on. *)
Theorem resources_grow_per_tick G fmt (schedule : list bool) :
  let w := run G fmt schedule initial in
  let M := length schedule in
  length (heap w) = 3 * M
  ∧ length (buffers w) = 4 * M
  ∧ length (shaderModules w) = M
  ∧ length (pipelines w) = M
  ∧ length (bindGroups w) = 2 * M
  ∧ device_bytes w = M * (8 * cells G + 56)
  ∧ canvasConfig w = (if M =? 0 then None else Some fmt).
Proof.
  cbn zeta. unfold device_bytes.
  induction schedule as [| acquired schedule IH] using rev_ind.
  - repeat split.
  - destruct IH as (I1 & I2 & I3 & I4 & I5 & I6 & I7).
    rewrite run_snoc, tick_after.
    cbn [after heap buffers shaderModules pipelines bindGroups canvasConfig].
    rewrite sum_list_with_app, !length_app, I1, I2, I3, I4, I5, I6.
    cbn [length sum_list_with buf_size].
    replace (length schedule + 1 =? 0) with false
      by (symmetry; apply Nat.eqb_neq; lia).
    repeat split; lia.
Qed.

(** X5: every buffer the device holds has been uploaded into exactly once,
    and no upload names a handle the device does not hold. *)
Theorem every_buffer_uploaded_once G fmt (schedule : list bool) (h : nat) :
  writes_to h (trace (run G fmt schedule initial))
  = if h <? length (buffers (run G fmt schedule initial)) then 1 else 0.
Proof.
  unfold writes_to.
  induction schedule as [| acquired schedule IH] using rev_ind; [reflexivity |].
  rewrite run_snoc, tick_after. cbn [after trace buffers].
  rewrite !count_app, IH, length_app. cbn [length].
  set (h0 := length (buffers (run G fmt schedule initial))).
  assert (Hs : ∀ p, count p (if acquired then [EvSubmit] else [])
                    = if acquired then (if p EvSubmit then 1 else 0) else 0).
  { intros p. destruct acquired; [| reflexivity].
    rewrite count_cons, count_nil. lia. }
  rewrite Hs. unfold setup_calls. rewrite !count_cons, count_nil.
  destruct (Nat.ltb_spec h h0), (Nat.ltb_spec h (h0 + 4)),
    (Nat.eqb_spec h0 h), (Nat.eqb_spec (h0 + 1) h),
    (Nat.eqb_spec (h0 + 2) h), (Nat.eqb_spec (h0 + 3) h);
    destruct acquired; lia.
Qed.

(** ** Frames stay within their buffers *)

Lemma invocation_frame_inv G fmt schedule k f :
  invocation_frame G fmt schedule k = Some f →
  schedule !! k = Some true ∧ f = expected_frame G fmt (Nat.even k).
Proof.
  intros H. unfold invocation_frame in H.
  destruct (schedule !! k) as [[|] |] eqn:Hk; cbn [mbind option_bind] in H.
  - split; [reflexivity |].
    pose proof (invocation_frame_acquired G fmt schedule k Hk) as E.
    unfold invocation_frame in E. rewrite Hk in E. cbn [mbind option_bind] in E.
    congruence.
  - by rewrite submitted_frame_failed in H.
  - discriminate.
Qed.

Lemma length_frame_states G second : length (frame_states G second) = cells G.
Proof.
  unfold frame_states. destruct second;
    [apply length_replicate | apply length_every_third].
Qed.

(** X6: a frame that is submitted draws exactly as many instances as its
    state buffer has cells and exactly as many vertices as its vertex buffer
    has positions, and its uniform buffer holds the two grid dimensions; so
    the vertex stage finds a state and a position for every instance and
    vertex of the draw, and there is no position for a vertex past the
    draw. *)
Theorem draw_stays_in_bounds G fmt (schedule : list bool) (k : nat) (f : Frame) :
  invocation_frame G fmt schedule k = Some f →
  length (fr_cellState f) = N.to_nat (fr_instanceCount f)
  ∧ length (fr_vertexData f) = 2 * N.to_nat (fr_vertexCount f)
  ∧ length (fr_uniform f) = 2
  ∧ (∀ i v, (i < fr_instanceCount f)%N → v < N.to_nat (fr_vertexCount f) →
       ∃ st p out,
         fr_cellState f !! N.to_nat i = Some (U32 st)
         ∧ vertex_position (fr_vertexData f) v = Some p
         ∧ vertex_stage f i v = Some out
         ∧ Shader.read_state (cell_bindings G (frame_states G (Nat.even k))) i = st)
  ∧ (∀ i v, N.to_nat (fr_vertexCount f) ≤ v → vertex_stage f i v = None).
Proof.
  intros H. apply invocation_frame_inv in H as [_ ->].
  cbn [expected_frame fr_cellState fr_instanceCount fr_vertexData
       fr_vertexCount fr_uniform].
  split; [by rewrite length_fmap, length_frame_states |].
  split; [reflexivity |]. split; [reflexivity |]. split.
  - intros i v Hi Hv.
    assert (Hi' : N.to_nat i < length (frame_states G (Nat.even k))).
    { rewrite length_frame_states. unfold cells. lia. }
    apply lookup_lt_is_Some in Hi' as [st Hst].
    assert (Hc : v = 0 ∨ v = 1 ∨ v = 2 ∨ v = 3 ∨ v = 4 ∨ v = 5)
      by (change (N.to_nat 6) with 6 in Hv; lia).
    assert (Hp : ∃ p, vertex_position (F32 <$> vertices_literal) v = Some p).
    { destruct Hc as [-> | [-> | [-> | [-> | [-> | ->]]]]]; eexists; reflexivity. }
    destruct Hp as [p Hp].
    exists st, p. eexists.
    split; [by rewrite list_lookup_fmap, Hst |].
    split; [exact Hp |].
    split; [by apply vertex_stage_expected |].
    unfold Shader.read_state, cell_bindings. cbn [Shader.cellState].
    by rewrite Hst.
  - intros i v Hv. change (N.to_nat 6) with 6 in Hv.
    unfold vertex_stage. rewrite frame_bindings_expected.
    cbn [mbind option_bind expected_frame fr_vertexData].
    unfold vertex_position.
    rewrite (lookup_ge_None_2 _ (2 * v)); [reflexivity |].
    unfold vertices_literal. rewrite !length_fmap. cbn [length]. lia.
Qed.

Lemma draw_stays_in_bounds_witness :
  ∃ st p out,
    fr_cellState (expected_frame 2 "bgra8unorm" false) !! N.to_nat 3 = Some (U32 st)
    ∧ vertex_position (fr_vertexData (expected_frame 2 "bgra8unorm" false)) 5 = Some p
    ∧ vertex_stage (expected_frame 2 "bgra8unorm" false) 3 5 = Some out
    ∧ Shader.read_state (cell_bindings 2 (frame_states 2 (Nat.even 1))) 3 = st.
Proof.
  assert (H : invocation_frame 2 "bgra8unorm" [true; true] 1
              = Some (expected_frame 2 "bgra8unorm" false)).
  { apply (invocation_frame_acquired 2 "bgra8unorm" [true; true] 1). reflexivity. }
  destruct (draw_stays_in_bounds 2 "bgra8unorm" [true; true] 1 _ H)
    as (_ & _ & _ & Hin & _).
  apply (Hin 3%N 5); [reflexivity | cbn; lia].
Defined.

(** ** How many cells are drawn *)

Lemma ceil_third_succ n :
  (S n + 2) / 3 = (n + 2) / 3 + (if n mod 3 =? 0 then 1 else 0).
Proof.
  pose proof (Nat.div_mod_eq n 3) as E.
  assert (Hr : n mod 3 < 3) by (apply Nat.mod_upper_bound; lia).
  set (q := n / 3) in *. set (r := n mod 3) in *. clearbody q r. subst n.
  replace (S (3 * q + r) + 2) with (q * 3 + (r + 3)) by lia.
  replace (3 * q + r + 2) with (q * 3 + (r + 2)) by lia.
  rewrite !Nat.div_add_l by lia.
  destruct r as [| [| [| r]]]; [| | | lia];
    cbn [Nat.add Nat.eqb Nat.div Nat.divmod fst]; lia.
Qed.

Lemma active_every_third n : active_cells (every_third n) = (n + 2) / 3.
Proof.
  unfold active_cells, every_third.
  induction n as [| n IH]; [reflexivity |].
  rewrite seq_S, fmap_app, filter_app, length_app, IH, ceil_third_succ.
  f_equal. cbn [fmap list_fmap Nat.add].
  rewrite filter_cons, filter_nil.
  destruct (n mod 3 =? 0); destruct (decide _) as [Hd | Hd];
    try reflexivity; exfalso; by apply Hd.
Qed.

Lemma active_ones n : active_cells (replicate n 1%N) = n.
Proof.
  unfold active_cells. induction n as [| n IH]; [reflexivity |].
  cbn [replicate]. rewrite filter_cons.
  destruct (decide _) as [_ | Hd]; [cbn [length]; by rewrite IH |].
  by exfalso; apply Hd.
Qed.

(** X7: the frame that tick [k] of a schedule submits binds a state buffer
    of [N * N] cells; when [k] is even (buffer B) all of them are active,
    and when [k] is odd (buffer A) one in three is, [⌈N² / 3⌉] cells. *)
Theorem active_cells_per_frame G fmt (schedule : list bool) (k : nat)
    (f : Frame) :
  invocation_frame G fmt schedule k = Some f →
  ∃ cs, mapM u32_word (fr_cellState f) = Some cs
        ∧ frame_bindings f = Some (cell_bindings G cs)
        ∧ length cs = cells G
        ∧ active_cells cs
          = if Nat.even k then cells G else (cells G + 2) / 3.
Proof.
  intros H. apply invocation_frame_inv in H as [_ ->].
  exists (frame_states G (Nat.even k)).
  split; [cbn [expected_frame fr_cellState]; apply mapM_u32_word |].
  split; [apply frame_bindings_expected |].
  split; [apply length_frame_states |].
  unfold frame_states. destruct (Nat.even k);
    [apply active_ones | apply active_every_third].
Qed.

Lemma active_cells_per_frame_witness :
  ∃ cs, mapM u32_word (fr_cellState (expected_frame 2 "bgra8unorm" false))
        = Some cs
        ∧ frame_bindings (expected_frame 2 "bgra8unorm" false)
          = Some (cell_bindings 2 cs)
        ∧ length cs = cells 2
        ∧ active_cells cs = (cells 2 + 2) / 3.
Proof.
  assert (H : invocation_frame 2 "bgra8unorm" [true; true] 1
              = Some (expected_frame 2 "bgra8unorm" false)).
  { apply (invocation_frame_acquired 2 "bgra8unorm" [true; true] 1). reflexivity. }
  exact (active_cells_per_frame 2 "bgra8unorm" [true; true] 1 _ H).
Defined.

End Further.


(* ===================================================================== *)
(** * Further properties of the vertex stage *)
(* ===================================================================== *)

Section FurtherShader.
Import Shader Host Observe.
Local Open Scope Q_scope.

(** ** Grids that are not square *)



(** ** Where in its slot a cell is drawn *)




(** ** States above 1 *)




End FurtherShader.
